(** * A static-site generator: [scripts/main.py]

    The script reads markdown documents that start with a five-line
    [Key: value] header, renders each through a template into [posts/] and
    writes an index sorted by publication date.  This development embeds the
    script function by function and states its behaviour.

    Conventions of the embedding.
    - Text is a [string] of ASCII characters.
    - A dict with string keys is a [gmap string _], a set of strings a
      [gset string].
    - [logger.error(...)] followed by [sys.exit(1)] is one outcome, [Fatal],
      carrying the logged message; an exception nobody catches is [Raised].
    - An f-string is the list of its pieces, literal text and interpolated
      values, in source order.
    - What the script imports from outside the standard library
      ([dateutil.parser.parse] and the [datetime] it returns, the markdown
      converter, the Jinja2 environment) is taken as a parameter. *)

From Stdlib Require Import ZArith Ascii String List Sorted Permutation Lia.
From stdpp Require Import gmap strings list sorting.

Set Warnings "-clear-no-such-hyp".

Local Open Scope string_scope.
Local Open Scope Z_scope.
Local Open Scope list_scope.

(** ** Python built-ins used by the script *)

Module Py.

(** [str.isspace] on an ASCII character: tab, line feed, vertical tab, form
    feed, carriage return, the four separators 0x1c-0x1f, and space. *)
Definition isspace (c : ascii) : bool :=
  let n := nat_of_ascii c in
  ((9 <=? n) && (n <=? 13) || (28 <=? n) && (n <=? 32))%nat.

(** [s.lstrip()] *)
Fixpoint lstrip (s : string) : string :=
  match s with
  | String c s' => if isspace c then lstrip s' else s
  | EmptyString => EmptyString
  end.

(** [s.rstrip()]: a trailing character goes when it is white space and
    everything after it has gone. *)
Fixpoint rstrip (s : string) : string :=
  match s with
  | String c s' =>
      match rstrip s' with
      | EmptyString => if isspace c then EmptyString else String c EmptyString
      | r => String c r
      end
  | EmptyString => EmptyString
  end.

(** [s.strip()] *)
Definition strip (s : string) : string := rstrip (lstrip s).

(** [s.split(sep, 1)] for a one-character separator: the two parts around
    the first occurrence, or [None] when [sep] does not occur (Python then
    returns the one-element list [[s]]). *)
Fixpoint split1 (sep : ascii) (s : string) : option (string * string) :=
  match s with
  | EmptyString => None
  | String c s' =>
      if Ascii.eqb c sep then Some (EmptyString, s')
      else match split1 sep s' with
           | Some (k, v) => Some (String c k, v)
           | None => None
           end
  end.

Definition is_digit (c : ascii) : bool :=
  let n := nat_of_ascii c in ((48 <=? n) && (n <=? 57))%nat.

Definition digit_val (c : ascii) : Z := Z.of_nat (nat_of_ascii c) - 48.

(** The digits of a decimal literal: a non-empty run of digits in which
    single underscores may separate digits. *)
Fixpoint digits (acc : Z) (after_digit : bool) (s : string) : option Z :=
  match s with
  | EmptyString => if after_digit then Some acc else None
  | String c s' =>
      if is_digit c then digits (10 * acc + digit_val c) true s'
      else if Ascii.eqb c "_"%char then
             if after_digit then digits acc false s' else None
           else None
  end.

(** [int(s)] on text, base ten; [None] stands for [ValueError]. *)
Definition int (s : string) : option Z :=
  match strip s with
  | String "-"%char s' => Z.opp <$> digits 0 false s'
  | String "+"%char s' => digits 0 false s'
  | s' => digits 0 false s'
  end.

(** [str(b)] for a [bool]. *)
Definition str_of_bool (b : bool) : string := if b then "True" else "False".

(** A text file opened for reading is the text still to be read.
    [next(f)] returns the next line, its line feed included, and the rest;
    [None] stands for [StopIteration] at end of file. *)
Fixpoint next (f : string) : option (string * string) :=
  match f with
  | EmptyString => None
  | String c f' =>
      if Ascii.eqb c "010"%char then Some (String c EmptyString, f')
      else match next f' with
           | Some (l, r) => Some (String c l, r)
           | None => Some (String c EmptyString, EmptyString)
           end
  end.

(** [f.readlines()]: every line of the file. *)
Fixpoint readlines (f : string) : list string :=
  match f with
  | EmptyString => []
  | String c f' =>
      if Ascii.eqb c "010"%char then String c EmptyString :: readlines f'
      else match readlines f' with
           | l :: ls => String c l :: ls
           | [] => [String c EmptyString]
           end
  end.

(** [[next(f) for x in range(n)]]: the first [n] lines and the file
    positioned after them; [None] when [StopIteration] escapes. *)
Fixpoint next_n (n : nat) (f : string) : option (list string * string) :=
  match n with
  | O => Some ([], f)
  | S n' =>
      match next f with
      | None => None
      | Some (l, f') =>
          match next_n n' f' with
          | None => None
          | Some (ls, r) => Some (l :: ls, r)
          end
      end
  end.

(** [sorted(l, key=key, reverse=reverse)], where [lt] is [<] on keys.  The
    sort is stable; with [reverse] set the list is reversed, sorted and
    reversed again, which is how the order of ties is kept. *)
Section Sorted.
Context {A K : Type} (key : A -> K) (lt : K -> K -> bool).

Fixpoint insert (x : A) (l : list A) : list A :=
  match l with
  | [] => [x]
  | y :: l' => if lt (key y) (key x) then y :: insert x l' else x :: l
  end.

Definition sort (l : list A) : list A := foldr insert [] l.

Definition sorted (reverse : bool) (l : list A) : list A :=
  if reverse then rev (sort (rev l)) else sort l.
End Sorted.

(** Whether a path has a slash. *)
Fixpoint has_slash (p : string) : bool :=
  match p with
  | EmptyString => false
  | String c p' => Ascii.eqb c "/"%char || has_slash p'
  end.

(** [PurePath(p).name], the final component, for a path that does not end in
    a slash: the text after the last slash, or the whole text when there is
    none. *)
Fixpoint path_name (p : string) : string :=
  match p with
  | EmptyString => EmptyString
  | String c p' =>
      if has_slash p' then path_name p'
      else if Ascii.eqb c "/"%char then p' else p
  end.

End Py.

(** ** Dates

    [DatePublished] is whatever [dateutil.parser.parse] returns, a
    [datetime.datetime]; the script only parses such values and compares
    them with [<] when it sorts. *)

Class DateTime := {
  datetime : Type;
  (** [a < b] on [datetime] *)
  dt_ltb : datetime -> datetime -> bool;
  (** [dateutil.parser.parse]; [None] when it raises *)
  parse : string -> option datetime;
}.

(** The comparison is a strict weak order, as it is on datetimes that can be
    compared with one another. *)
Class DateTimeOrder (D : DateTime) : Prop := {
  dt_asym : forall a b : datetime, dt_ltb a b = true -> dt_ltb b a = false;
  dt_cotrans : forall a b c : datetime,
    dt_ltb a c = true -> dt_ltb a b = true \/ dt_ltb b c = true;
}.

(** Two dates tie when neither is before the other. *)
Definition dt_tie `{DateTime} (a b : datetime) : bool :=
  negb (dt_ltb a b) && negb (dt_ltb b a).

(** ** Data model *)

(** [class RenderRecord]; paths are kept as text relative to [ROOT_DIR]. *)
Record RenderRecord `{DateTime} := mkRenderRecord {
  InPath : string;
  OutPath : string;
  Title : string;
  DatePublished : datetime;
  IsDraft : Z;
}.

(** The values a template context holds. *)
Inductive Value `{DateTime} :=
| VStr (s : string)
| VInt (z : Z)
| VDate (d : datetime)
| VPosts (posts : list RenderRecord).

(** One piece of an f-string: literal text or an interpolated value. *)
Inductive piece :=
| Lit (s : string)
| FStr (s : string)          (* a [str] or a [pathlib.Path] *)
| FBool (b : bool)           (* prints as [True] or [False] *)
| FSet (X : gset string).    (* prints as a set display *)

Inductive exception :=
| ValueError                  (* unpacking the result of [split] *)
| KeyError (k : string)
| TypeError
| TemplateNotFound (name : string).

(** How a computation ends. *)
Inductive outcome (A : Type) :=
| Ok (a : A)
| Fatal (msg : list piece)   (* [logger.error(msg); sys.exit(1)] *)
| Raised (e : exception).
Arguments Ok {A} a.
Arguments Fatal {A} msg.
Arguments Raised {A} e.

(** ** The header schema *)

Definition HEADER_LINES : nat := 5.

(** The conversions named in [HEADERS]. *)
Inductive conversion := conv_str | conv_parse | conv_int.

Definition HEADERS : gmap string conversion :=
  <["Title" := conv_str]> (
  <["Template" := conv_str]> (
  <["MetaDescription" := conv_str]> (
  <["DatePublished" := conv_parse]> (
  <["IsDraft" := conv_int]> ∅)))).

(** [HEADERS[key](value)]; [None] when the call raises. *)
Definition convert `{DateTime} (c : conversion) (value : string) : option Value :=
  match c with
  | conv_str => Some (VStr value)
  | conv_parse => VDate <$> parse value
  | conv_int => VInt <$> Py.int value
  end.

(** ** [head_to_context] *)

Section HeadToContext.
Context `{DateTime}.

Definition header_keys : gset string := dom HEADERS.

(** The body of [for line in head], from the mapping built so far. *)
Fixpoint head_loop (path : string) (result : gmap string Value)
    (head : list string) : outcome (gmap string Value) :=
  match head with
  | [] => Ok result
  | line :: rest =>
      match Py.split1 ":" line with
      | None => Raised ValueError
      | Some (key, value) =>
          let key := Py.strip key in
          let value := Py.strip value in
          if decide (key ∈ header_keys) then
            match HEADERS !! key with
            | None => Raised (KeyError key)
            | Some c =>
                match convert c value with
                | Some v => head_loop path (<[key := v]> result) rest
                | None =>
                    Fatal [Lit "Unable to parse "; FStr key; Lit " from ";
                           FStr path; Lit "."]
                end
            end
          else
            Fatal [Lit "File "; FStr path;
                   Lit " has invalid header field: "; FStr key; Lit "."]
      end
  end.

Definition head_to_context (head : list string) (path : string)
    : outcome (gmap string Value) :=
  match head_loop path ∅ head with
  | Ok result =>
      let difference := header_keys ∖ dom result in
      if decide (difference = ∅) then Ok result
      else Fatal [Lit "Missing header fields "; FSet difference;
                  Lit " in the file "; FStr path; Lit "."]
  | Fatal msg => Fatal msg
  | Raised e => Raised e
  end.

End HeadToContext.

(** ** [run] *)

(** A file matched by [SRC_DIR.glob("*.md")]: its stem and its text, decoded
    and with line ends already translated to line feeds. *)
Record SourceFile := mkSourceFile {
  stem : string;
  content : string;
}.

Definition src_path (d : SourceFile) : string := "src/" +:+ stem d +:+ ".md".

(** [path.stem + ".html"], the name of the output file in [POSTS_DIR]. *)
Definition out_name (d : SourceFile) : string := stem d +:+ ".html".

(** What the script reads and writes besides the sources: the regular files
    of [POSTS_DIR] by name, [index.html], and the lines logged at level
    info. *)
Record Site := mkSite {
  posts : gmap string string;
  index_html : option string;
  log : list (list piece);
}.

Section Run.
Context `{DateTime}.

(** A loaded template, as its [render] applied to the keyword arguments. *)
Definition Template : Type := gmap string Value -> string.

(** The collaborators of a run: whether a name exists under
    [TEMPLATES_DIR] ([joinpath(name).exists()]), the loader of
    [JINJA2_ENV] ([None] when [get_template] raises [TemplateNotFound]),
    and [md.convert]. *)
Record Env := mkEnv {
  tpl_exists : string -> bool;
  get_template : string -> option Template;
  md_convert : string -> string;
}.

(** [context[k]] read as text, an integer or a date. *)
Definition get_str (context : gmap string Value) (k : string) : outcome string :=
  match context !! k with
  | Some (VStr s) => Ok s
  | Some _ => Raised TypeError
  | None => Raised (KeyError k)
  end.

Definition get_int (context : gmap string Value) (k : string) : outcome Z :=
  match context !! k with
  | Some (VInt z) => Ok z
  | Some _ => Raised TypeError
  | None => Raised (KeyError k)
  end.

Definition get_date (context : gmap string Value) (k : string) : outcome datetime :=
  match context !! k with
  | Some (VDate d) => Ok d
  | Some _ => Raised TypeError
  | None => Raised (KeyError k)
  end.

(** The [RenderRecord(...)] built from a context. *)
Definition make_record (d : SourceFile) (context : gmap string Value)
    : outcome RenderRecord :=
  match get_str context "Title", get_date context "DatePublished",
        get_int context "IsDraft" with
  | Ok t, Ok dp, Ok dr =>
      Ok (mkRenderRecord _ (src_path d) ("posts/" +:+ out_name d) t dp dr)
  | Raised e, _, _ | Ok _, Raised e, _ | Ok _, Ok _, Raised e => Raised e
  | Fatal m, _, _ | Ok _, Fatal m, _ | Ok _, Ok _, Fatal m => Fatal m
  end.

(** The body of [for match in SRC_DIR.glob("*.md")]: one document, from
    the site and the records gathered so far. *)
Definition render_file (env : Env) (d : SourceFile) (st : Site)
    (render_paths : list RenderRecord) : Site * outcome (list RenderRecord) :=
  let path := src_path d in
  match Py.next_n HEADER_LINES (content d) with
  | None => (st, Fatal [Lit "Not all header provided in "; FStr path])
  | Some (head, text) =>
      match head_to_context head path with
      | Fatal msg => (st, Fatal msg)
      | Raised e => (st, Raised e)
      | Ok context =>
          let context := <["PostMarkup" := VStr (md_convert env text)]> context in
          match get_str context "Template" with
          | Fatal msg => (st, Fatal msg)
          | Raised e => (st, Raised e)
          | Ok name =>
              let tpl := tpl_exists env name in
              if tpl then
                match get_template env name with
                | None => (st, Raised (TemplateNotFound name))
                | Some template =>
                    let render := template context in
                    match make_record d context with
                    | Fatal msg =>
                        (mkSite (<[out_name d := render]> (posts st))
                                (index_html st) (log st), Fatal msg)
                    | Raised e =>
                        (mkSite (<[out_name d := render]> (posts st))
                                (index_html st) (log st), Raised e)
                    | Ok r =>
                        (mkSite (<[out_name d := render]> (posts st))
                                (index_html st)
                                (log st ++ [[Lit "Rendered ";
                                             FStr ("posts/" +:+ out_name d);
                                             Lit "."]]),
                         Ok (render_paths ++ [r]))
                    end
                end
              else
                (st, Fatal [Lit "Template "; FBool tpl; Lit " does not exists."])
          end
      end
  end.

(** The whole [for] loop over the matched files, in enumeration order. *)
Fixpoint render_files (env : Env) (sources : list SourceFile) (st : Site)
    (render_paths : list RenderRecord) : Site * outcome (list RenderRecord) :=
  match sources with
  | [] => (st, Ok render_paths)
  | d :: rest =>
      match render_file env d st render_paths with
      | (st', Ok render_paths') => render_files env rest st' render_paths'
      | failed => failed
      end
  end.

(** The [posts] argument of the index template. *)
Definition index_posts (render_paths : list RenderRecord) : list RenderRecord :=
  Py.sorted DatePublished dt_ltb true render_paths.

(** The last block of [run]: [index.html] is opened for writing, which
    empties it, before the template is looked up. *)
Definition render_index (env : Env) (st : Site)
    (render_paths : list RenderRecord) : Site * outcome unit :=
  let st := mkSite (posts st) (Some "") (log st) in
  match get_template env "index.jinja2" with
  | None => (st, Raised (TemplateNotFound "index.jinja2"))
  | Some template =>
      let render :=
        template (<["posts" := VPosts (index_posts render_paths)]>
                 (<["Title" := VStr "liquidscorpio - weblog"]> ∅)) in
      (mkSite (posts st) (Some render) (log st), Ok tt)
  end.

Definition run (env : Env) (sources : list SourceFile) (st : Site)
    : Site * outcome unit :=
  (* Empty the posts directory *)
  let st := mkSite ∅ (index_html st) (log st) in
  match render_files env sources st [] with
  | (st', Ok render_paths) => render_index env st' render_paths
  | (st', Fatal msg) => (st', Fatal msg)
  | (st', Raised e) => (st', Raised e)
  end.

End Run.

(** ** Calendar dates, to run the script on examples

    A stand-in for [dateutil] on text of the form [YYYY-MM-DD]: the date is
    its year, month and day, compared in that order.  Other text is not
    parsed by the stand-in. *)

Module IsoDate.

Definition two_digits (a b : ascii) : option Z :=
  if Py.is_digit a && Py.is_digit b
  then Some (10 * Py.digit_val a + Py.digit_val b) else None.

Definition parse (s : string) : option (Z * Z * Z) :=
  match s with
  | String y1 (String y2 (String y3 (String y4 (String "-" (String m1
    (String m2 (String "-" (String d1 (String d2 EmptyString))))))))) =>
      match two_digits y1 y2, two_digits y3 y4, two_digits m1 m2,
            two_digits d1 d2 with
      | Some yh, Some yl, Some m, Some d =>
          if (1 <=? m) && (m <=? 12) && (1 <=? d) && (d <=? 31)
          then Some (100 * yh + yl, m, d) else None
      | _, _, _, _ => None
      end
  | _ => None
  end.

Definition ltb (a b : Z * Z * Z) : bool :=
  let '(y1, m1, d1) := a in
  let '(y2, m2, d2) := b in
  (y1 <? y2) || (y1 =? y2) && ((m1 <? m2) || (m1 =? m2) && (d1 <? d2)).

End IsoDate.

#[local] Instance iso_date : DateTime :=
  {| datetime := Z * Z * Z; dt_ltb := IsoDate.ltb; parse := IsoDate.parse |}.

(** ** Derived notions used in the statements *)

Section Notions.
Context `{DateTime}.

(** The key and value [head_to_context] takes from a line: the parts
    around the first colon, both stripped. *)
Definition key_value (line : string) : option (string * string) :=
  match Py.split1 ":" line with
  | Some (key, value) => Some (Py.strip key, Py.strip value)
  | None => None
  end.

(** [line] passes the loop body and stores [x] under [k]: it has a colon,
    its key is in the schema and its value converts. *)
Definition parses_to (line : string) (kx : string * Value) : Prop :=
  exists value c, key_value line = Some (kx.1, value) /\
    HEADERS !! kx.1 = Some c /\ convert c value = Some kx.2.

(** The mapping after the bindings [kxs] are stored in order. *)
Definition store (result : gmap string Value) (kxs : list (string * Value))
    : gmap string Value :=
  foldl (fun m kx => <[kx.1 := kx.2]> m) result kxs.

(** The message says [s]: [s] is one of its interpolated texts. *)
Definition mentions (msg : list piece) (s : string) : Prop := FStr s ∈ msg.

(** The text of a message.  The display of a set lists its elements in an
    order that Python does not fix, so a message with a set has no text
    here. *)
Fixpoint message_text (msg : list piece) : option string :=
  match msg with
  | [] => Some EmptyString
  | p :: msg' =>
      match p, message_text msg' with
      | Lit s, Some t | FStr s, Some t => Some (s +:+ t)
      | FBool b, Some t => Some (Py.str_of_bool b +:+ t)
      | _, _ => None
      end
  end.

(** [r] is the record of the document [d]: it names [d] as its source and
    holds the draft flag that the header of [d] parses to. *)
Definition record_of (d : SourceFile) (r : RenderRecord) : Prop :=
  InPath r = src_path d /\
  exists head text context,
    Py.next_n HEADER_LINES (content d) = Some (head, text) /\
    head_to_context head (src_path d) = Ok context /\
    context !! "IsDraft" = Some (VInt (IsDraft r)).

(** The posts directory as the loop finds it. *)
Definition emptied (st : Site) : Site := mkSite ∅ (index_html st) (log st).

End Notions.

(** ** Sample sites

    Text, templates and documents on which the script is run below.  The
    markdown converter and the templates are stand-ins: the converter
    returns its input, a template prints the title it is given, the index
    template prints the source paths of its posts in order. *)

Definition nl : string := String "010" EmptyString.

(** The text of a file with the given lines. *)
Definition file_of (lines : list string) : string :=
  foldr (fun l t => l +:+ nl +:+ t) EmptyString lines.

Definition post_template : gmap string (@Value iso_date) -> string :=
  fun context =>
    match context !! "Title" with Some (VStr t) => t | _ => EmptyString end.

Definition index_template : gmap string (@Value iso_date) -> string :=
  fun context =>
    match context !! "posts" with
    | Some (VPosts l) => foldr (fun r t => InPath r +:+ " " +:+ t) EmptyString l
    | _ => EmptyString
    end.

(** A template directory with [post.jinja2] and [index.jinja2]. *)
Definition site_env : @Env iso_date :=
  {| tpl_exists := fun name =>
       bool_decide (name = "post.jinja2") || bool_decide (name = "index.jinja2");
     get_template := fun name =>
       if bool_decide (name = "post.jinja2") then Some post_template
       else if bool_decide (name = "index.jinja2") then Some index_template
       else None;
     md_convert := fun text => text |}.

(** A template directory with [post.jinja2] only. *)
Definition no_index_env : @Env iso_date :=
  {| tpl_exists := fun name => bool_decide (name = "post.jinja2");
     get_template := fun name =>
       if bool_decide (name = "post.jinja2") then Some post_template else None;
     md_convert := fun text => text |}.

(** An empty template directory. *)
Definition bare_env : @Env iso_date :=
  {| tpl_exists := fun _ => false;
     get_template := fun _ => None;
     md_convert := fun text => text |}.

Definition fresh_site : Site := mkSite ∅ None [].

Definition post (name title template date draft : string) : SourceFile :=
  mkSourceFile name
    (file_of ["Title: " +:+ title; "Template: " +:+ template;
              "MetaDescription: about " +:+ title;
              "DatePublished: " +:+ date; "IsDraft: " +:+ draft;
              "Some *text*."]).

(** Three posts, enumerated in the order January, June, December. *)
Definition three_posts : list SourceFile :=
  [post "jan" "January" "post.jinja2" "2024-01-01" "0";
   post "jun" "June" "post.jinja2" "2024-06-01" "1";
   post "dec" "December" "post.jinja2" "2023-12-01" "0"].

(** Their records, and a fourth that ties with the first. *)
Definition three_records : list (@RenderRecord iso_date) :=
  [mkRenderRecord _ "src/jan.md" "posts/jan.html" "January" (2024, 1, 1) 0;
   mkRenderRecord _ "src/jun.md" "posts/jun.html" "June" (2024, 6, 1) 1;
   mkRenderRecord _ "src/dec.md" "posts/dec.html" "December" (2023, 12, 1) 0].

Definition tied_records : list (@RenderRecord iso_date) :=
  three_records ++
  [mkRenderRecord _ "src/new.md" "posts/new.html" "New year" (2024, 1, 1) 0].

(** Five header lines as [next] returns them, and the mapping they give. *)
Definition sample_lines : list string :=
  ["IsDraft: 0" +:+ nl; "Title : Hello" +:+ nl;
   "DatePublished:2024-06-01" +:+ nl; " Template: post.jinja2" +:+ nl;
   "MetaDescription: first: post" +:+ nl].

Definition sample_bindings : list (string * @Value iso_date) :=
  [("IsDraft", VInt 0); ("Title", VStr "Hello");
   ("DatePublished", VDate (2024, 6, 1)); ("Template", VStr "post.jinja2");
   ("MetaDescription", VStr "first: post")].

Definition sample_context : gmap string (@Value iso_date) :=
  store ∅ sample_bindings.

(** The first of the three posts. *)
Definition jan_post : SourceFile :=
  post "jan" "January" "post.jinja2" "2024-01-01" "0".

(** A document that stops after two header lines. *)
Definition short_post : SourceFile :=
  mkSourceFile "short" (file_of ["Title: Short"; "Template: post.jinja2"]).

(** A document with a header field that is not in the schema. *)
Definition author_post : SourceFile :=
  mkSourceFile "author"
    (file_of ["Title: Hello"; "Author: me"; "Template: post.jinja2";
              "DatePublished: 2024-01-01"; "IsDraft: 0"; "Text."]).

(** ** Further notions *)

(** The [Url] property of [RenderRecord]. *)
Definition Url `{DateTime} (r : RenderRecord) : string :=
  "posts/" +:+ Py.path_name (OutPath r).

(** Text made of white space only. *)
Fixpoint blank (s : string) : bool :=
  match s with
  | EmptyString => true
  | String c s' => Py.isspace c && blank s'
  end.

(** The text is one line: it is not empty, and a line feed can only be its
    last character. *)
Fixpoint one_line (l : string) : bool :=
  match l with
  | EmptyString => false
  | String c EmptyString => true
  | String c l' => negb (Ascii.eqb c "010") && one_line l'
  end.

(** The lines put back together, followed by [rest]. *)
Definition joined (lines : list string) (rest : string) : string :=
  foldr String.append rest lines.

(** The line logged for a rendered document. *)
Definition rendered_line (d : SourceFile) : list piece :=
  [Lit "Rendered "; FStr ("posts/" +:+ out_name d); Lit "."].

(** The document passes the loop body: it has five header lines, they
    parse, and the template they name exists and loads. *)
Definition renderable `{DateTime} (env : Env) (d : SourceFile) : Prop :=
  exists head text context name template,
    Py.next_n HEADER_LINES (content d) = Some (head, text) /\
    head_to_context head (src_path d) = Ok context /\
    context !! "Template" = Some (VStr name) /\
    tpl_exists env name = true /\
    get_template env name = Some template.

(** The messages with which [head_to_context] can end the run. *)
Definition invalid_field_msg (path key : string) : list piece :=
  [Lit "File "; FStr path; Lit " has invalid header field: "; FStr key; Lit "."].

Definition unable_to_parse_msg (key path : string) : list piece :=
  [Lit "Unable to parse "; FStr key; Lit " from "; FStr path; Lit "."].

Definition missing_fields_msg (difference : gset string) (path : string)
    : list piece :=
  [Lit "Missing header fields "; FSet difference; Lit " in the file ";
   FStr path; Lit "."].

(** * Properties *)


(** ** The schema *)

Lemma header_keys_eq :
  header_keys =
  {[ "Title"; "Template"; "MetaDescription"; "DatePublished"; "IsDraft" ]}.
Proof.
  unfold header_keys, HEADERS. rewrite !dom_insert_L, dom_empty_L. set_solver.
Qed.

Lemma HEADERS_lookup k c :
  HEADERS !! k = Some c <->
  (k = "Title" /\ c = conv_str) \/ (k = "Template" /\ c = conv_str) \/
  (k = "MetaDescription" /\ c = conv_str) \/
  (k = "DatePublished" /\ c = conv_parse) \/ (k = "IsDraft" /\ c = conv_int).
Proof.
  unfold HEADERS. rewrite !lookup_insert_Some, lookup_empty.
  split; intros G; repeat (destruct G as [G|G]); intuition congruence.
Qed.

Lemma HEADERS_is_Some k : k ∈ header_keys <-> is_Some (HEADERS !! k).
Proof. unfold header_keys. apply elem_of_dom. Qed.

(** ** The loop of [head_to_context] *)

Section HeadLoop.
Context `{DateTime}.
Implicit Types (head : list string) (result : gmap string Value).

Lemma head_loop_no_colon path result line rest :
  Py.split1 ":" line = None ->
  head_loop path result (line :: rest) = Raised ValueError.
Proof. intros E. simpl. by rewrite E. Qed.

Lemma head_loop_unknown path result line rest key value :
  Py.split1 ":" line = Some (key, value) ->
  Py.strip key ∉ header_keys ->
  head_loop path result (line :: rest) =
    Fatal [Lit "File "; FStr path; Lit " has invalid header field: ";
           FStr (Py.strip key); Lit "."].
Proof. intros E Hk. simpl. rewrite E. by rewrite decide_False. Qed.

Lemma head_loop_unparsed path result line rest key value c :
  Py.split1 ":" line = Some (key, value) ->
  HEADERS !! Py.strip key = Some c ->
  convert c (Py.strip value) = None ->
  head_loop path result (line :: rest) =
    Fatal [Lit "Unable to parse "; FStr (Py.strip key); Lit " from ";
           FStr path; Lit "."].
Proof.
  intros E Hc Hv. simpl. rewrite E.
  rewrite decide_True by (apply HEADERS_is_Some; eauto).
  by rewrite Hc, Hv.
Qed.

Lemma head_loop_step path result line rest kx :
  parses_to line kx ->
  head_loop path result (line :: rest) =
    head_loop path (<[kx.1 := kx.2]> result) rest.
Proof.
  intros (value & c & E & Hc & Hv). unfold key_value in E. simpl.
  destruct (Py.split1 ":" line) as [[k v]|]; [|done].
  injection E as E1 E2. rewrite E1, E2.
  rewrite decide_True by (apply HEADERS_is_Some; eauto).
  by rewrite Hc, Hv.
Qed.

Lemma head_loop_app path result pre rest kxs :
  Forall2 parses_to pre kxs ->
  head_loop path result (pre ++ rest) =
    head_loop path (store result kxs) rest.
Proof.
  intros F. revert result. induction F as [|line kx pre kxs P F IH];
    intros result; [done|].
  rewrite <- app_comm_cons, (head_loop_step _ _ _ _ _ P). apply IH.
Qed.

Lemma head_loop_all path result head kxs :
  Forall2 parses_to head kxs ->
  head_loop path result head = Ok (store result kxs).
Proof.
  intros F. rewrite <- (app_nil_r head).
  by rewrite (head_loop_app _ _ _ _ _ F).
Qed.

(** A mapping comes out only when every line passed. *)
Lemma head_loop_inv path result head m :
  head_loop path result head = Ok m ->
  exists kxs, Forall2 parses_to head kxs /\ m = store result kxs.
Proof.
  revert result. induction head as [|line rest IH]; intros result E.
  - exists []. split; [constructor|]. simpl in E. by injection E as <-.
  - simpl in E.
    destruct (Py.split1 ":" line) as [[key value]|] eqn:Es; [|done].
    destruct (decide _) as [Hk|]; [|done].
    destruct (HEADERS !! Py.strip key) as [c|] eqn:Hc; [|done].
    destruct (convert c (Py.strip value)) as [x|] eqn:Hv; [|done].
    destruct (IH _ E) as (kxs & F & ->).
    exists ((Py.strip key, x) :: kxs). split; [|done].
    constructor; [|done].
    exists (Py.strip value), c. unfold key_value. by rewrite Es.
Qed.

Lemma dom_store result kxs :
  dom (store result kxs) = dom result ∪ list_to_set kxs.*1.
Proof.
  revert result. induction kxs as [|[k x] kxs IH]; intros result; simpl.
  - set_solver.
  - unfold store in *. simpl. rewrite IH, dom_insert_L. set_solver.
Qed.

(** The last binding of a key is the one that stays. *)
Lemma store_last result l1 k x l2 :
  k ∉ l2.*1 -> store result (l1 ++ (k, x) :: l2) !! k = Some x.
Proof.
  intros Hk. unfold store. rewrite foldl_app. simpl.
  generalize (foldl (fun m kx => <[kx.1 := kx.2]> m) result l1). intros m.
  assert (G : forall m' : gmap string Value, m' !! k = Some x ->
    foldl (fun m kx => <[kx.1 := kx.2]> m) m' l2 !! k = Some x).
  { induction l2 as [|[k' x'] l2 IH]; intros m' Hm; [done|].
    simpl. apply IH; [set_solver|].
    rewrite lookup_insert_ne; [done|]. set_solver. }
  apply G. by rewrite lookup_insert_eq.
Qed.

Lemma store_lookup_None result kxs k :
  k ∉ kxs.*1 -> store result kxs !! k = result !! k.
Proof.
  revert result. induction kxs as [|[k' x'] kxs IH]; intros result Hk; [done|].
  unfold store in *. simpl. rewrite IH by set_solver.
  apply lookup_insert_ne. set_solver.
Qed.

End HeadLoop.

(** ** A complete header *)

Section ValidHeader.
Context `{DateTime}.

Lemma store_lookup_nodup (result : gmap string Value) kxs k x :
  NoDup kxs.*1 -> (k, x) ∈ kxs -> store result kxs !! k = Some x.
Proof.
  intros ND Hin. apply list_elem_of_split in Hin as (l1 & l2 & ->).
  apply store_last. rewrite fmap_app, fmap_cons in ND.
  apply NoDup_app in ND as (_ & _ & ND). by apply NoDup_cons in ND as [? _].
Qed.

(** Lines whose keys are in the schema and whose values convert all pass
    the loop body. *)
Lemma convertible_lines head (kvs : list (string * string)) :
  Forall2 (fun line kv => key_value line = Some kv) head kvs ->
  Forall (fun kv => exists c x,
    HEADERS !! kv.1 = Some c /\ convert c kv.2 = Some x) kvs ->
  exists kxs, Forall2 parses_to head kxs /\
    Forall2 (fun kv kx => kx.1 = kv.1 /\ exists c,
      HEADERS !! kv.1 = Some c /\ convert c kv.2 = Some kx.2) kvs kxs.
Proof.
  induction 1 as [|line [k v] head kvs E F IH]; intros G.
  - exists []. split; constructor.
  - apply Forall_cons in G as [(c & x & Hc & Hx) G].
    destruct (IH G) as (kxs & F1 & F2).
    exists ((k, x) :: kxs). split; constructor; try done.
    + by exists v, c.
    + split; [done|]. by exists c.
Qed.

Lemma Forall2_fst_eq (kvs : list (string * string))
    (kxs : list (string * Value)) (P : string * string -> string * Value -> Prop) :
  Forall2 (fun kv kx => kx.1 = kv.1 /\ P kv kx) kvs kxs -> kxs.*1 = kvs.*1.
Proof.
  induction 1 as [|kv kx kvs' kxs' [E _] F IH]; [done|].
  rewrite !fmap_cons. by rewrite E, IH.
Qed.

(** C2.  A header whose lines all have the [Key: value] shape, whose keys
    are the five schema fields, each once, and whose date and draft values
    convert, yields the mapping with exactly the keys [Title], [Template],
    [MetaDescription], [DatePublished] and [IsDraft]: the first three hold
    their text unchanged, [DatePublished] the parsed date and [IsDraft]
    the parsed integer. *)
Theorem head_to_context_complete head path (kvs : list (string * string)) :
  Forall2 (fun line kv => key_value line = Some kv) head kvs ->
  kvs.*1 ≡ₚ ["Title"; "Template"; "MetaDescription"; "DatePublished"; "IsDraft"] ->
  (forall v, ("DatePublished", v) ∈ kvs -> is_Some (parse v)) ->
  (forall v, ("IsDraft", v) ∈ kvs -> is_Some (Py.int v)) ->
  exists title template descr vd d vz z,
    ("Title", title) ∈ kvs /\ ("Template", template) ∈ kvs /\
    ("MetaDescription", descr) ∈ kvs /\
    ("DatePublished", vd) ∈ kvs /\ parse vd = Some d /\
    ("IsDraft", vz) ∈ kvs /\ Py.int vz = Some z /\
    head_to_context head path =
      Ok (<["Title" := VStr title]> (<["Template" := VStr template]> (
          <["MetaDescription" := VStr descr]> (<["DatePublished" := VDate d]> (
          <["IsDraft" := VInt z]> ∅))))).
Proof.
  intros F P Hd Hz.
  assert (ND : NoDup kvs.*1).
  { rewrite P. repeat (apply NoDup_cons; split; [set_solver|]). constructor. }
  assert (Hin : forall k, k ∈ header_keys -> exists v, (k, v) ∈ kvs).
  { intros k Hk. rewrite header_keys_eq in Hk.
    assert (Hk' : k ∈ kvs.*1) by (rewrite P; set_solver).
    apply list_elem_of_fmap in Hk' as ([k' v] & -> & ?). by exists v. }
  destruct (Hin "Title") as [title Ht]; [rewrite header_keys_eq; set_solver|].
  destruct (Hin "Template") as [template Htp]; [rewrite header_keys_eq; set_solver|].
  destruct (Hin "MetaDescription") as [descr Hds]; [rewrite header_keys_eq; set_solver|].
  destruct (Hin "DatePublished") as [vd Hvd]; [rewrite header_keys_eq; set_solver|].
  destruct (Hin "IsDraft") as [vz Hvz]; [rewrite header_keys_eq; set_solver|].
  destruct (Hd _ Hvd) as [d Ed]. destruct (Hz _ Hvz) as [z Ez].
  exists title, template, descr, vd, d, vz, z. repeat (split; [done|]).
  destruct (convertible_lines head kvs F) as (kxs & F1 & F2).
  { apply Forall_forall. intros [k v] Hkv.
    assert (Hk : k ∈ kvs.*1) by (apply list_elem_of_fmap; by exists (k, v)).
    rewrite P in Hk. simpl.
    assert (Hc : k = "Title" \/ k = "Template" \/ k = "MetaDescription" \/
                 k = "DatePublished" \/ k = "IsDraft") by set_solver.
    destruct Hc as [-> | [-> | [-> | [-> | ->]]]].
    - exists conv_str, (VStr v). by rewrite HEADERS_lookup; auto.
    - exists conv_str, (VStr v). by rewrite HEADERS_lookup; auto.
    - exists conv_str, (VStr v). by rewrite HEADERS_lookup; auto 6.
    - destruct (Hd _ Hkv) as [d' Ed']. exists conv_parse, (VDate d').
      split; [rewrite HEADERS_lookup; auto 8|]. simpl. by rewrite Ed'.
    - destruct (Hz _ Hkv) as [z' Ez']. exists conv_int, (VInt z').
      split; [rewrite HEADERS_lookup; auto 8|]. simpl. by rewrite Ez'. }
  pose proof (Forall2_fst_eq _ _ _ F2) as Hfst.
  assert (Hget : forall k v c x, (k, v) ∈ kvs -> HEADERS !! k = Some c ->
            convert c v = Some x -> store ∅ kxs !! k = Some x).
  { intros k v c x Hkv Hc Hx.
    apply list_elem_of_lookup in Hkv as [i Hi].
    destruct (Forall2_lookup_l _ _ _ _ _ F2 Hi) as ([k' x'] & Hi' & Hk' & c' & Hc' & Hx').
    simpl in *. subst k'. assert (c' = c) by congruence. subst c'.
    assert (x' = x) by congruence. subst x'.
    apply store_lookup_nodup; [by rewrite Hfst|].
    apply list_elem_of_lookup. eauto. }
  unfold head_to_context. rewrite (head_loop_all _ _ _ _ F1).
  assert (Hdom : dom (store ∅ kxs) = header_keys).
  { rewrite dom_store, dom_empty_L, Hfst, header_keys_eq.
    apply set_eq. intros k. rewrite elem_of_union, elem_of_list_to_set, P.
    set_solver. }
  rewrite Hdom, decide_True by set_solver. f_equal.
  apply map_eq. intros k.
  destruct (decide (k ∈ header_keys)) as [Hk|Hk].
  - rewrite header_keys_eq in Hk.
    assert (Hc : k = "Title" \/ k = "Template" \/ k = "MetaDescription" \/
                 k = "DatePublished" \/ k = "IsDraft") by set_solver.
    destruct Hc as [-> | [-> | [-> | [-> | ->]]]].
    + rewrite (Hget _ _ conv_str (VStr title) Ht); [by simplify_map_eq|done..].
    + rewrite (Hget _ _ conv_str (VStr template) Htp); [by simplify_map_eq|done..].
    + rewrite (Hget _ _ conv_str (VStr descr) Hds); [by simplify_map_eq|done..].
    + rewrite (Hget _ _ conv_parse (VDate d) Hvd); [by simplify_map_eq|done|].
      simpl. by rewrite Ed.
    + rewrite (Hget _ _ conv_int (VInt z) Hvz); [by simplify_map_eq|done|].
      simpl. by rewrite Ez.
  - assert (store ∅ kxs !! k = None) as -> by (apply not_elem_of_dom; by rewrite Hdom).
    rewrite header_keys_eq in Hk. symmetry.
    rewrite !lookup_insert_ne by set_solver. apply lookup_empty.
Qed.

End ValidHeader.

(** ** Headers that fail *)

Section FailingHeader.
Context `{DateTime}.

(** The keys a list of lines stores, when all of them pass. *)
Lemma head_loop_dom head path kxs :
  Forall2 parses_to head kxs ->
  exists result, head_loop path ∅ head = Ok result /\
    dom result = list_to_set kxs.*1.
Proof.
  intros F. exists (store ∅ kxs). split; [by apply head_loop_all|].
  rewrite dom_store, dom_empty_L. set_solver.
Qed.

(** A line with a key outside the schema, or with no colon, never passes. *)
Lemma parses_to_known line kx :
  parses_to line kx ->
  exists key value, Py.split1 ":" line = Some (key, value) /\
    Py.strip key = kx.1 /\ kx.1 ∈ header_keys.
Proof.
  intros (value & c & E & Hc & _). unfold key_value in E.
  destruct (Py.split1 ":" line) as [[k v]|]; [|done].
  injection E as E1 E2. exists k, v. repeat split; [done|].
  apply HEADERS_is_Some. eauto.
Qed.

Lemma head_with_bad_line_fails pre line post path :
  (forall kx, ~ parses_to line kx) ->
  forall m, head_to_context (pre ++ line :: post) path <> Ok m.
Proof.
  intros Hbad m E. unfold head_to_context in E.
  destruct (head_loop path ∅ (pre ++ line :: post)) as [r| |] eqn:El; [|done..].
  apply head_loop_inv in El as (kxs & F & _).
  apply Forall2_app_inv_l in F as (k1 & k2 & _ & F & _).
  inversion F as [|? kx ? ? P]; subst. by apply (Hbad kx).
Qed.

(** C4, amended.  When every header line has the [Key: value] shape, a key
    of the schema and a value that converts, and some schema field has no
    line, the parser returns no mapping: it ends the run with the
    missing-fields message, which carries exactly the set of schema fields
    that have no line, and the path of the file. *)
Theorem missing_fields_reported head path kxs :
  Forall2 parses_to head kxs ->
  (exists k, k ∈ header_keys /\ k ∉ kxs.*1) ->
  exists difference : gset string,
    (forall k, k ∈ difference <-> k ∈ header_keys /\ k ∉ kxs.*1) /\
    head_to_context head path =
      Fatal [Lit "Missing header fields "; FSet difference;
             Lit " in the file "; FStr path; Lit "."].
Proof.
  intros F (k & Hk & Hnk).
  destruct (head_loop_dom head path kxs F) as (result & E & Hdom).
  exists (header_keys ∖ dom result). split.
  - intros k'. rewrite Hdom, elem_of_difference, elem_of_list_to_set. tauto.
  - unfold head_to_context. rewrite E.
    rewrite decide_False; [done|]. rewrite Hdom. intros Hempty.
    assert (k ∈ header_keys ∖ list_to_set kxs.*1) as Hin
      by (rewrite elem_of_difference, elem_of_list_to_set; tauto).
    rewrite Hempty in Hin. set_solver.
Qed.

(** C5, amended.  A header with a line whose key is outside the schema
    never yields a mapping.  When every line before it has the
    [Key: value] shape, a key of the schema and a value that converts, the
    parser ends the run with the message that carries the path of the file
    and that key; the line's value plays no part, the key being checked
    before any conversion. *)
Theorem unknown_key_reported pre line post path key value :
  Py.split1 ":" line = Some (key, value) ->
  Py.strip key ∉ header_keys ->
  (forall m, head_to_context (pre ++ line :: post) path <> Ok m) /\
  (Forall (fun l => exists kx, parses_to l kx) pre ->
   head_to_context (pre ++ line :: post) path =
     Fatal [Lit "File "; FStr path; Lit " has invalid header field: ";
            FStr (Py.strip key); Lit "."]).
Proof.
  intros E Hk. split.
  - apply head_with_bad_line_fails. intros kx P.
    apply parses_to_known in P as (key' & value' & E' & Hs & Hin).
    rewrite E in E'. injection E' as <- <-. by rewrite Hs in Hk.
  - intros F. apply Forall_exists_Forall2_l in F as [kxs F].
    unfold head_to_context.
    rewrite (head_loop_app _ _ _ _ _ F).
    by rewrite (head_loop_unknown _ _ _ _ _ _ E Hk).
Qed.

(** C8, amended.  A header with a line that has no colon never yields a
    mapping.  When every line before it has the [Key: value] shape, a key
    of the schema and a value that converts, unpacking the split raises
    [ValueError], which nothing catches: the parser does not end through a
    logged message and exit. *)
Theorem missing_colon_raises pre line post path :
  Py.split1 ":" line = None ->
  (forall m, head_to_context (pre ++ line :: post) path <> Ok m) /\
  (Forall (fun l => exists kx, parses_to l kx) pre ->
   head_to_context (pre ++ line :: post) path = Raised ValueError).
Proof.
  intros E. split.
  - apply head_with_bad_line_fails. intros kx P.
    apply parses_to_known in P as (key' & value' & E' & _). congruence.
  - intros F. apply Forall_exists_Forall2_l in F as [kxs F].
    unfold head_to_context.
    rewrite (head_loop_app _ _ _ _ _ F).
    by rewrite (head_loop_no_colon _ _ _ _ E).
Qed.

Lemma size_list_to_set_le (l : list string) :
  (size (list_to_set l : gset string) <= length l)%nat.
Proof.
  induction l as [|x l IH].
  - by rewrite list_to_set_nil, size_empty.
  - rewrite list_to_set_cons, size_union_alt, size_singleton. simpl.
    assert (size ((list_to_set l : gset string) ∖ {[x]})
            <= size (list_to_set l : gset string))%nat
      by (apply subseteq_size; set_solver).
    lia.
Qed.

Lemma size_header_keys : size header_keys = 5%nat.
Proof.
  rewrite header_keys_eq.
  rewrite !size_union, !size_singleton by set_solver. done.
Qed.

(** C9, amended.  Five header lines that all have the [Key: value] shape,
    a key of the schema and a value that converts, two of them with the
    same key [k]: the mapping built by the loop holds under [k] the value
    of the last line with that key; some schema field is then without a
    line, and the parser ends the run with the missing-fields message,
    which carries exactly the fields without a line, [k] not among
    them.  The script has no message about repeated keys. *)
Theorem repeated_key_last_wins head path l1 k x1 l2 x2 l3 :
  length head = HEADER_LINES ->
  Forall2 parses_to head (l1 ++ (k, x1) :: l2 ++ (k, x2) :: l3) ->
  k ∉ l3.*1 ->
  exists (result : gmap string Value) (difference : gset string),
    head_loop path ∅ head = Ok result /\ result !! k = Some x2 /\
    (forall a, a ∈ difference <-> a ∈ header_keys /\ a ∉ dom result) /\
    (exists a, a ∈ difference) /\ (k ∉ difference) /\
    head_to_context head path =
      Fatal [Lit "Missing header fields "; FSet difference;
             Lit " in the file "; FStr path; Lit "."].
Proof.
  intros Hlen F Hk.
  set (kxs := l1 ++ (k, x1) :: l2 ++ (k, x2) :: l3) in *.
  pose proof (head_loop_all path ∅ head kxs F) as E.
  assert (Hx : store ∅ kxs !! k = Some x2).
  { replace kxs with ((l1 ++ (k, x1) :: l2) ++ (k, x2) :: l3)
      by (unfold kxs; by rewrite <- app_assoc).
    by apply store_last. }
  assert (Hdom : dom (store (∅ : gmap string Value) kxs) = list_to_set kxs.*1).
  { rewrite dom_store, dom_empty_L. apply (left_id_L ∅ (∪)). }
  assert (Hsize : (size (dom (store (∅ : gmap string Value) kxs)) <= 4)%nat).
  { rewrite Hdom. unfold kxs.
    assert ((list_to_set (l1 ++ (k, x1) :: l2 ++ (k, x2) :: l3).*1 : gset string)
            = list_to_set (l1 ++ l2 ++ (k, x2) :: l3).*1) as ->.
    { rewrite !fmap_app, !fmap_cons, !fmap_app, !fmap_cons. set_solver. }
    etrans; [apply size_list_to_set_le|].
    rewrite length_fmap.
    apply Forall2_length in F. rewrite Hlen in F. unfold kxs in F.
    rewrite !length_app in *. simpl in *. rewrite !length_app in *.
    simpl in *. unfold HEADER_LINES in F. lia. }
  clearbody kxs.
  assert (Hne : header_keys ∖ dom (store (∅ : gmap string Value) kxs) <> ∅).
  { intros Hempty.
    assert (header_keys ⊆ dom (store (∅ : gmap string Value) kxs)) as Hsub.
    { intros a Ha.
      destruct (decide (a ∈ dom (store (∅ : gmap string Value) kxs)))
        as [|Hn]; [done|].
      assert (a ∈ header_keys ∖ dom (store (∅ : gmap string Value) kxs)) as Hin
        by (by apply elem_of_difference).
      rewrite Hempty in Hin. by apply not_elem_of_empty in Hin. }
    apply subseteq_size in Hsub. rewrite size_header_keys in Hsub. lia. }
  exists (store ∅ kxs), (header_keys ∖ dom (store ∅ kxs)).
  split; [done|]. split; [done|].
  split; [intros a; apply elem_of_difference|].
  split; [by apply set_choose_L|]. split.
  - intros [_ Hn]%elem_of_difference. apply Hn, elem_of_dom. eauto.
  - unfold head_to_context. rewrite E. by rewrite decide_False.
Qed.

End FailingHeader.

(** ** [sorted] *)

Section SortedSpec.
Context {A K : Type} (key : A -> K) (lt : K -> K -> bool).
Hypothesis lt_asym : forall a b, lt a b = true -> lt b a = false.
Hypothesis lt_cotrans :
  forall a b c, lt a c = true -> lt a b = true \/ lt b c = true.

(** [a] may stand before [b] in ascending order. *)
Let asc (a b : A) : Prop := lt (key b) (key a) = false.

(** [r] ties with the key [k]. *)
Let tie (k : K) (r : A) : bool := negb (lt (key r) k) && negb (lt k (key r)).

Lemma insert_perm x l : Py.insert key lt x l ≡ₚ x :: l.
Proof.
  induction l as [|y l IH]; simpl; [done|].
  destruct (lt (key y) (key x)); [|done].
  rewrite IH. apply Permutation_swap.
Qed.

Lemma sort_perm l : Py.sort key lt l ≡ₚ l.
Proof.
  induction l as [|x l IH]; simpl; [done|].
  unfold Py.sort in *. simpl. by rewrite insert_perm, IH.
Qed.

Lemma insert_sorted x l :
  StronglySorted asc l -> StronglySorted asc (Py.insert key lt x l).
Proof.
  induction l as [|y l IH]; intros S; simpl.
  - repeat constructor.
  - apply StronglySorted_cons in S as [Hy S].
    destruct (lt (key y) (key x)) eqn:E.
    + apply StronglySorted_cons. split; [|by apply IH].
      rewrite insert_perm. constructor; [|done].
      unfold asc. by apply lt_asym.
    + apply StronglySorted_cons. split.
      * constructor; [done|].
        eapply Forall_impl; [exact Hy|]. intros z Hz. unfold asc in *.
        destruct (lt (key z) (key x)) eqn:Ez; [|done].
        destruct (lt_cotrans _ (key y) _ Ez); congruence.
      * apply StronglySorted_cons. by split.
Qed.

Lemma sort_sorted l : StronglySorted asc (Py.sort key lt l).
Proof.
  induction l as [|x l IH]; [constructor|]. by apply insert_sorted.
Qed.

(** Inserting moves [x] only past records that are strictly before it, so
    the records that tie with a given key keep their order. *)
Lemma insert_ties k x l :
  List.filter (tie k) (Py.insert key lt x l) = List.filter (tie k) (x :: l).
Proof.
  induction l as [|y l IH]; [done|]. simpl in *.
  destruct (lt (key y) (key x)) eqn:E; [|done].
  simpl. rewrite IH.
  destruct (tie k x) eqn:Tx, (tie k y) eqn:Ty; try done.
  exfalso. unfold tie in *.
  apply andb_true_iff in Tx as [Tx1 Tx2], Ty as [Ty1 Ty2].
  apply negb_true_iff in Tx1, Tx2, Ty1, Ty2.
  destruct (lt_cotrans _ k _ E); congruence.
Qed.

Lemma sort_ties k l :
  List.filter (tie k) (Py.sort key lt l) = List.filter (tie k) l.
Proof.
  induction l as [|x l IH]; [done|].
  unfold Py.sort in *. simpl foldr. rewrite insert_ties. simpl.
  by rewrite IH.
Qed.

Lemma StronglySorted_rev (R : A -> A -> Prop) l :
  StronglySorted R l -> StronglySorted (flip R) (rev l).
Proof.
  induction 1 as [|x l S IH Hx]; simpl; [constructor|].
  apply StronglySorted_app. split; [|split; [done|repeat constructor]].
  intros a b Ha Hb. apply list_elem_of_singleton in Hb as ->.
  unfold flip. rewrite Forall_forall in Hx. apply Hx.
  apply list_elem_of_In. apply in_rev. by apply list_elem_of_In.
Qed.

(** With [reverse=True] the result holds the same records, no record is
    followed by one with a greater key, and ties keep their order. *)
Lemma sorted_reverse_spec l :
  Py.sorted key lt true l ≡ₚ l /\
  StronglySorted (fun a b => lt (key a) (key b) = false)
    (Py.sorted key lt true l) /\
  (forall k, List.filter (tie k) (Py.sorted key lt true l)
             = List.filter (tie k) l).
Proof.
  unfold Py.sorted. split; [|split].
  - by rewrite <- Permutation_rev, sort_perm, <- Permutation_rev.
  - apply (StronglySorted_rev asc), sort_sorted.
  - intros k. by rewrite filter_rev, sort_ties, filter_rev, rev_involutive.
Qed.

End SortedSpec.

(** ** The index *)

(** C1.  The [posts] handed to the index template are the render records,
    each once, sorted by [DatePublished] with the most recent first: no
    record is followed by one with a later date, and records whose dates tie
    stand in the order in which they were gathered.  The index written is
    the template applied to that list. *)
Theorem index_sorted_by_date `{D : DateTime} `{!DateTimeOrder D}
    (render_paths : list RenderRecord) :
  index_posts render_paths ≡ₚ render_paths /\
  StronglySorted
    (fun a b => dt_ltb (DatePublished a) (DatePublished b) = false)
    (index_posts render_paths) /\
  (forall d : datetime,
     List.filter (fun r => dt_tie (DatePublished r) d) (index_posts render_paths)
     = List.filter (fun r => dt_tie (DatePublished r) d) render_paths) /\
  (forall env st template,
     get_template env "index.jinja2" = Some template ->
     exists context,
       context !! "posts" = Some (VPosts (index_posts render_paths)) /\
       render_index env st render_paths =
         (mkSite (posts st) (Some (template context)) (log st), Ok tt)).
Proof.
  destruct (sorted_reverse_spec DatePublished dt_ltb dt_asym dt_cotrans
              render_paths) as (P & S & T).
  split; [exact P|]. split; [exact S|]. split; [exact T|].
  intros env st template E. unfold render_index. rewrite E.
  eexists. split; [|reflexivity]. apply lookup_insert_eq.
Qed.

(** ** Reading the header lines *)

Lemma next_readlines f :
  match Py.next f with
  | None => Py.readlines f = []
  | Some (l, r) => Py.readlines f = l :: Py.readlines r
  end.
Proof.
  induction f as [|c f IH]; simpl; [done|].
  destruct (Ascii.eqb c "010"); [done|].
  destruct (Py.next f) as [[l r]|]; by rewrite IH.
Qed.

Lemma next_n_readlines n f :
  match Py.next_n n f with
  | None => (length (Py.readlines f) < n)%nat
  | Some (ls, r) => Py.readlines f = ls ++ Py.readlines r /\ length ls = n
  end.
Proof.
  revert f. induction n as [|n IH]; intros f; simpl; [done|].
  pose proof (next_readlines f) as Hn.
  destruct (Py.next f) as [[l f']|]; [|rewrite Hn; simpl; lia].
  specialize (IH f'). rewrite Hn.
  destruct (Py.next_n n f') as [[ls r]|]; simpl.
  - destruct IH as [-> <-]. done.
  - lia.
Qed.

(** [StopIteration] escapes exactly when the file has fewer lines than are
    asked for. *)
Lemma next_n_None n f :
  Py.next_n n f = None <-> (length (Py.readlines f) < n)%nat.
Proof.
  pose proof (next_n_readlines n f) as Hn.
  destruct (Py.next_n n f) as [[ls r]|]; [|done].
  destruct Hn as [-> <-]. rewrite length_app. split; [done|lia].
Qed.

(** ** One document *)

Section OneDocument.
Context `{DateTime}.

Lemma render_files_app env pre post st render_paths :
  render_files env (pre ++ post) st render_paths =
  match render_files env pre st render_paths with
  | (st', Ok render_paths') => render_files env post st' render_paths'
  | failed => failed
  end.
Proof.
  revert st render_paths. induction pre as [|d pre IH]; intros st rps; [done|].
  simpl. destruct (render_file env d st rps) as [st1 [rps1| |]]; [apply IH|done..].
Qed.

Lemma render_file_short env d st render_paths :
  (length (Py.readlines (content d)) < HEADER_LINES)%nat ->
  render_file env d st render_paths =
    (st, Fatal [Lit "Not all header provided in "; FStr (src_path d)]).
Proof.
  intros Hs. apply next_n_None in Hs. unfold render_file. by rewrite Hs.
Qed.

(** What a parsed header holds under each key. *)
Lemma store_lookup_elem (kxs : list (string * Value)) k x :
  store ∅ kxs !! k = Some x -> (k, x) ∈ kxs.
Proof.
  induction kxs as [|[k' x'] kxs IH] using rev_ind; [done|].
  unfold store in *. rewrite foldl_app. simpl.
  destruct (decide (k' = k)) as [->|Hne].
  - rewrite lookup_insert_eq. intros [= ->]. set_solver.
  - rewrite lookup_insert_ne by done. set_solver.
Qed.

Lemma context_types head path context :
  head_to_context head path = Ok context ->
  exists title template descr d z,
    context !! "Title" = Some (VStr title) /\
    context !! "Template" = Some (VStr template) /\
    context !! "MetaDescription" = Some (VStr descr) /\
    context !! "DatePublished" = Some (VDate d) /\
    context !! "IsDraft" = Some (VInt z).
Proof.
  unfold head_to_context. intros E.
  destruct (head_loop path ∅ head) as [result| |] eqn:El; [|done..].
  destruct (decide _) as [Hd|]; [|done]. injection E as <-.
  apply head_loop_inv in El as (kxs & F & ->).
  assert (Hk : forall k c, HEADERS !! k = Some c ->
    exists x value, store ∅ kxs !! k = Some x /\ convert c value = Some x).
  { intros k c Hc.
    assert (k ∈ dom (store ∅ kxs)) as Hin.
    { destruct (decide (k ∈ dom (store ∅ kxs))) as [|Hn]; [done|].
      assert (k ∈ header_keys ∖ dom (store ∅ kxs)) as Hin'
        by (apply elem_of_difference; split; [apply HEADERS_is_Some; eauto|done]).
      rewrite Hd in Hin'. by apply not_elem_of_empty in Hin'. }
    apply elem_of_dom in Hin as [x Hx]. exists x.
    pose proof (store_lookup_elem _ _ _ Hx) as Hel.
    apply list_elem_of_lookup in Hel as [i Hi].
    destruct (Forall2_lookup_r _ _ _ _ _ F Hi) as (line & _ & value & c' & _ & Hc' & Hv).
    simpl in *. exists value. split; [done|]. congruence. }
  destruct (Hk "Title" conv_str) as (x1 & v1 & E1 & C1); [by apply HEADERS_lookup; auto|].
  destruct (Hk "Template" conv_str) as (x2 & v2 & E2 & C2); [by apply HEADERS_lookup; auto|].
  destruct (Hk "MetaDescription" conv_str) as (x3 & v3 & E3 & C3); [by apply HEADERS_lookup; auto 6|].
  destruct (Hk "DatePublished" conv_parse) as (x4 & v4 & E4 & C4); [by apply HEADERS_lookup; auto 8|].
  destruct (Hk "IsDraft" conv_int) as (x5 & v5 & E5 & C5); [by apply HEADERS_lookup; auto 8|].
  simpl in *.
  destruct (parse v4) as [d|]; [|done]. destruct (Py.int v5) as [z|]; [|done].
  simpl in *. exists v1, v2, v3, d, z.
  rewrite E1, E2, E3, E4, E5. repeat split; congruence.
Qed.

(** The record of a document whose header parsed. *)
Lemma make_record_parsed d head path context text :
  head_to_context head path = Ok context ->
  exists title dp z,
    context !! "Title" = Some (VStr title) /\
    context !! "DatePublished" = Some (VDate dp) /\
    context !! "IsDraft" = Some (VInt z) /\
    make_record d (<["PostMarkup" := VStr text]> context) =
      Ok (mkRenderRecord _ (src_path d) ("posts/" +:+ out_name d) title dp z).
Proof.
  intros E.
  destruct (context_types _ _ _ E) as (t & tp & ds & dp & z & E1 & _ & _ & E4 & E5).
  exists t, dp, z. repeat (split; [done|]).
  unfold make_record, get_str, get_date, get_int.
  rewrite !lookup_insert_ne by done. by rewrite E1, E4, E5.
Qed.

(** The template is looked for only after the header has parsed; when
    [exists()] is false the run ends there, and the value interpolated in
    the message is that [False]. *)
Lemma render_file_no_template env d st render_paths head text context name :
  Py.next_n HEADER_LINES (content d) = Some (head, text) ->
  head_to_context head (src_path d) = Ok context ->
  context !! "Template" = Some (VStr name) ->
  tpl_exists env name = false ->
  render_file env d st render_paths =
    (st, Fatal [Lit "Template "; FBool false; Lit " does not exists."]).
Proof.
  intros En Eh Et Ex. unfold render_file, get_str. rewrite En, Eh.
  rewrite lookup_insert_ne by done. by rewrite Et, Ex.
Qed.

(** A document whose header parsed and whose template is found is written
    and recorded. *)
Lemma render_file_rendered env d st render_paths head text context name template :
  Py.next_n HEADER_LINES (content d) = Some (head, text) ->
  head_to_context head (src_path d) = Ok context ->
  context !! "Template" = Some (VStr name) ->
  tpl_exists env name = true ->
  get_template env name = Some template ->
  exists title dp z,
    context !! "Title" = Some (VStr title) /\
    context !! "DatePublished" = Some (VDate dp) /\
    context !! "IsDraft" = Some (VInt z) /\
    render_file env d st render_paths =
      (mkSite
         (<[out_name d :=
              template (<["PostMarkup" := VStr (md_convert env text)]> context)]>
            (posts st))
         (index_html st)
         (log st ++ [[Lit "Rendered "; FStr ("posts/" +:+ out_name d); Lit "."]]),
       Ok (render_paths ++
           [mkRenderRecord _ (src_path d) ("posts/" +:+ out_name d) title dp z])).
Proof.
  intros En Eh Et Ex Eg.
  destruct (make_record_parsed d _ _ _ (md_convert env text) Eh)
    as (t & dp & z & E1 & E4 & E5 & Er).
  exists t, dp, z. repeat (split; [done|]).
  unfold render_file, get_str. rewrite En, Eh.
  rewrite lookup_insert_ne by done. by rewrite Et, Ex, Eg, Er.
Qed.

(** Conversely, a document passes the loop body only that way. *)
Lemma render_file_inv env d st render_paths st' render_paths' :
  render_file env d st render_paths = (st', Ok render_paths') ->
  exists head text context name template r,
    Py.next_n HEADER_LINES (content d) = Some (head, text) /\
    head_to_context head (src_path d) = Ok context /\
    context !! "Template" = Some (VStr name) /\
    tpl_exists env name = true /\
    get_template env name = Some template /\
    context !! "IsDraft" = Some (VInt (IsDraft r)) /\
    InPath r = src_path d /\
    posts st' = <[out_name d :=
        template (<["PostMarkup" := VStr (md_convert env text)]> context)]>
        (posts st) /\
    index_html st' = index_html st /\
    render_paths' = render_paths ++ [r].
Proof.
  unfold render_file. intros E.
  destruct (Py.next_n _ _) as [[head text]|] eqn:En; [|done].
  destruct (head_to_context _ _) as [context| |] eqn:Eh; [|done..].
  destruct (context_types _ _ _ Eh) as (t & tp & ds & dp & z & E1 & E2 & _ & E4 & E5).
  destruct (make_record_parsed d _ _ _ (md_convert env text) Eh)
    as (t' & dp' & z' & _ & _ & E5' & Er).
  unfold get_str in E. rewrite lookup_insert_ne in E by done. rewrite E2 in E.
  destruct (tpl_exists env tp) eqn:Ex; [|done].
  destruct (get_template env tp) as [template|] eqn:Eg; [|done].
  rewrite Er in E. injection E as <- <-.
  eexists head, text, context, tp, template, _. by repeat split.
Qed.

End OneDocument.

(** ** The whole run *)

Section WholeRun.
Context `{DateTime}.

Lemma render_files_inv env sources st render_paths st' render_paths' :
  render_files env sources st render_paths = (st', Ok render_paths') ->
  exists new,
    render_paths' = render_paths ++ new /\
    Forall2 record_of sources new /\
    (forall d, d ∈ sources -> out_name d ∈ dom (posts st')) /\
    dom (posts st) ⊆ dom (posts st') /\
    index_html st' = index_html st.
Proof.
  revert st render_paths.
  induction sources as [|d sources IH]; intros st rps E; simpl in E.
  - injection E as <- <-. exists []. rewrite app_nil_r.
    repeat split; [constructor|set_solver|done].
  - destruct (render_file env d st rps) as [st1 [rps1| |]] eqn:Ed; [|done..].
    apply render_file_inv in Ed
      as (head & text & ctx & name & tpl & r & En & Eh & _ & _ & _ & Ez & Ep & Eposts & Ei & ->).
    apply IH in E as (new & -> & F & Hout & Hsub & Hidx).
    exists (r :: new). rewrite <- app_assoc. split; [done|].
    assert (out_name d ∈ dom (posts st')) as Hd.
    { apply Hsub. rewrite Eposts, dom_insert_L. set_solver. }
    split; [|split; [|split]].
    + constructor; [|done]. split; [done|]. by exists head, text, ctx.
    + intros d' [->|Hin]%elem_of_cons; auto.
    + etrans; [|exact Hsub]. rewrite Eposts, dom_insert_L. set_solver.
    + congruence.
Qed.

Lemma index_posts_perm render_paths : index_posts render_paths ≡ₚ render_paths.
Proof.
  unfold index_posts, Py.sorted.
  by rewrite <- Permutation_rev, sort_perm, <- Permutation_rev.
Qed.

(** C6, amended.  A source document with fewer than five lines ends the
    run where the loop arrives at it, whatever its lines are: nothing of
    it is parsed or written, and the message logged carries the path of
    the file.  The run as a whole ends so when every document enumerated
    before it has been rendered. *)
Theorem short_document_aborts env d :
  (length (Py.readlines (content d)) < HEADER_LINES)%nat ->
  (forall st render_paths,
     render_file env d st render_paths =
       (st, Fatal [Lit "Not all header provided in "; FStr (src_path d)])) /\
  (forall pre post st st' render_paths',
     render_files env pre (emptied st) [] = (st', Ok render_paths') ->
     run env (pre ++ d :: post) st =
       (st', Fatal [Lit "Not all header provided in "; FStr (src_path d)])).
Proof.
  intros Hs. split.
  - intros st rps. by apply render_file_short.
  - intros pre post st st' rps' E. unfold run. fold (emptied st).
    rewrite render_files_app, E. simpl.
    by rewrite (render_file_short _ _ _ _ Hs).
Qed.

(** C7, amended.  A document whose header parsed and whose template is
    found is written to its output file and its record, holding the parsed
    draft flag, joins the records gathered, whatever that flag is.  When
    the run completes, every source document has its output file in the
    posts directory and the list handed to the index template holds
    exactly one record for each of them: no record is left out on account
    of its draft flag. *)
Theorem drafts_are_not_filtered env :
  (forall d st render_paths head text context name template,
     Py.next_n HEADER_LINES (content d) = Some (head, text) ->
     head_to_context head (src_path d) = Ok context ->
     context !! "Template" = Some (VStr name) ->
     tpl_exists env name = true ->
     get_template env name = Some template ->
     exists st' r,
       render_file env d st render_paths = (st', Ok (render_paths ++ [r])) /\
       context !! "IsDraft" = Some (VInt (IsDraft r)) /\
       out_name d ∈ dom (posts st')) /\
  (forall sources st st',
     run env sources st = (st', Ok tt) ->
     exists render_paths template context,
       Forall2 record_of sources render_paths /\
       (forall d, d ∈ sources -> out_name d ∈ dom (posts st')) /\
       index_posts render_paths ≡ₚ render_paths /\
       get_template env "index.jinja2" = Some template /\
       context !! "posts" = Some (VPosts (index_posts render_paths)) /\
       index_html st' = Some (template context)).
Proof.
  split.
  - intros d st rps head text ctx name template En Eh Et Ex Eg.
    destruct (render_file_rendered env d st rps _ _ _ _ _ En Eh Et Ex Eg)
      as (t & dp & z & _ & _ & Ez & ->).
    eexists _, _. split; [reflexivity|]. split; [done|].
    simpl. rewrite dom_insert_L. set_solver.
  - intros sources st st' E. unfold run in E. fold (emptied st) in E.
    destruct (render_files env sources (emptied st) []) as [st1 [rps| |]] eqn:El;
      [|done..].
    apply render_files_inv in El as (new & -> & F & Hout & _ & _).
    unfold render_index in E.
    destruct (get_template env "index.jinja2") as [template|] eqn:Eg; [|done].
    injection E as <-. simpl in *.
    eexists new, template, _. split; [done|]. split; [done|].
    split; [apply index_posts_perm|]. split; [done|].
    split; [|reflexivity]. apply lookup_insert_eq.
Qed.

(** C10, amended.  Without [index.jinja2] no run completes.  When every
    source document has been rendered, so that each has its output file in
    the posts directory, [get_template] raises [TemplateNotFound], which
    nothing catches; no message is logged and [sys.exit] is not called.
    By then [index.html] has been opened for writing and is empty. *)
Theorem missing_index_template env sources st :
  get_template env "index.jinja2" = None ->
  (forall st', run env sources st <> (st', Ok tt)) /\
  (forall st' render_paths,
     render_files env sources (emptied st) [] = (st', Ok render_paths) ->
     (forall d, d ∈ sources -> out_name d ∈ dom (posts st')) /\
     run env sources st =
       (mkSite (posts st') (Some "") (log st'),
        Raised (TemplateNotFound "index.jinja2"))).
Proof.
  intros Eg. split.
  - intros st' E. unfold run in E.
    destruct (render_files _ _ _ _) as [st1 [rps| |]]; [|done..].
    unfold render_index in E. by rewrite Eg in E.
  - intros st' rps El. split.
    + by apply render_files_inv in El as (_ & _ & _ & Hout & _).
    + unfold run. fold (emptied st). rewrite El.
      unfold render_index. by rewrite Eg.
Qed.

End WholeRun.

(** * The script at work *)

#[local] Instance iso_date_order : DateTimeOrder iso_date.
Proof.
  split.
  - intros [[y1 m1] d1] [[y2 m2] d2]. simpl. unfold IsoDate.ltb.
    rewrite orb_true_iff, !andb_true_iff, orb_true_iff, !andb_true_iff.
    rewrite orb_false_iff, !andb_false_iff, orb_false_iff, !andb_false_iff.
    rewrite !Z.ltb_lt, !Z.eqb_eq, !Z.ltb_ge, !Z.eqb_neq. lia.
  - intros [[y1 m1] d1] [[y2 m2] d2] [[y3 m3] d3]. simpl. unfold IsoDate.ltb.
    rewrite !orb_true_iff, !andb_true_iff, !orb_true_iff, !andb_true_iff.
    rewrite !Z.ltb_lt, !Z.eqb_eq. lia.
Qed.


Example strip_ex : Py.strip "  IsDraft  " = "IsDraft".
Proof. reflexivity. Qed.

Example split1_ex : Py.split1 ":" "Title: a: b" = Some ("Title", " a: b").
Proof. reflexivity. Qed.

Example int_ex : Py.int "1_000" = Some 1000 /\ Py.int "-7" = Some (-7)
  /\ Py.int "abc" = None /\ Py.int "" = None /\ Py.int "1__0" = None.
Proof. repeat split. Qed.

Example iso_parse_ex :
  IsoDate.parse "2024-06-01" = Some (2024, 6, 1) /\ IsoDate.parse "June" = None.
Proof. split; reflexivity. Qed.

(** The dates 2024-01-01, 2024-06-01, 2023-12-01 come out in the order
    2024-06-01, 2024-01-01, 2023-12-01. *)
Example index_order_ex :
  map DatePublished (index_posts three_records)
  = [(2024, 6, 1); (2024, 1, 1); (2023, 12, 1)].
Proof. reflexivity. Qed.

(** Two records of the same date keep the order in which they came. *)
Example index_ties_ex :
  map InPath (index_posts tied_records)
  = ["src/jun.md"; "src/jan.md"; "src/new.md"; "src/dec.md"].
Proof. reflexivity. Qed.

(** A whole run over the three posts: three files in [posts/], and an index
    that lists June, January, December. *)
Example run_three_posts :
  let '(st, result) := run site_env three_posts fresh_site in
  result = Ok tt /\
  index_html st = Some "src/jun.md src/jan.md src/dec.md " /\
  map_to_list (posts st)
  ≡ₚ [("jan.html", "January"); ("jun.html", "June"); ("dec.html", "December")].
Proof.
  vm_compute. split; [done|]. split; [done|].
  etrans; [|apply Permutation_swap]. done.
Qed.

(** ** Instances of the theorems *)

Ltac known_line value c :=
  exists value, c; repeat split; reflexivity.

Lemma index_sorted_by_date_witness :
  index_posts three_records ≡ₚ three_records /\
  StronglySorted
    (fun a b => dt_ltb (DatePublished a) (DatePublished b) = false)
    (index_posts three_records) /\
  (forall d : datetime,
     List.filter (fun r => dt_tie (DatePublished r) d) (index_posts three_records)
     = List.filter (fun r => dt_tie (DatePublished r) d) three_records) /\
  (forall env st template,
     get_template env "index.jinja2" = Some template ->
     exists context,
       context !! "posts" = Some (VPosts (index_posts three_records)) /\
       render_index env st three_records =
         (mkSite (posts st) (Some (template context)) (log st), Ok tt)).
Proof.
  exact (@index_sorted_by_date iso_date iso_date_order three_records).
Defined.

Lemma head_to_context_complete_witness :
  exists title template descr vd d vz z,
    ("Title", title) ∈ [("IsDraft", "0"); ("Title", "Hello");
      ("DatePublished", "2024-06-01"); ("Template", "post.jinja2");
      ("MetaDescription", "first: post")] /\
    ("Template", template) ∈ [("IsDraft", "0"); ("Title", "Hello");
      ("DatePublished", "2024-06-01"); ("Template", "post.jinja2");
      ("MetaDescription", "first: post")] /\
    ("MetaDescription", descr) ∈ [("IsDraft", "0"); ("Title", "Hello");
      ("DatePublished", "2024-06-01"); ("Template", "post.jinja2");
      ("MetaDescription", "first: post")] /\
    ("DatePublished", vd) ∈ [("IsDraft", "0"); ("Title", "Hello");
      ("DatePublished", "2024-06-01"); ("Template", "post.jinja2");
      ("MetaDescription", "first: post")] /\ parse vd = Some d /\
    ("IsDraft", vz) ∈ [("IsDraft", "0"); ("Title", "Hello");
      ("DatePublished", "2024-06-01"); ("Template", "post.jinja2");
      ("MetaDescription", "first: post")] /\ Py.int vz = Some z /\
    head_to_context
      ["IsDraft: 0" +:+ nl; "Title : Hello" +:+ nl;
       "DatePublished:2024-06-01" +:+ nl; " Template: post.jinja2" +:+ nl;
       "MetaDescription: first: post" +:+ nl] "src/hello.md" =
      Ok (<["Title" := VStr title]> (<["Template" := VStr template]> (
          <["MetaDescription" := VStr descr]> (<["DatePublished" := VDate d]> (
          <["IsDraft" := VInt z]> ∅))))).
Proof.
  apply (@head_to_context_complete iso_date).
  - repeat constructor.
  - simpl. apply (Permutation_cons_app ["Title"; "Template"; "MetaDescription";
                                         "DatePublished"] []).
    apply perm_skip.
    apply (Permutation_cons_app ["Template"; "MetaDescription"] []).
    apply (Permutation_cons_app [] ["MetaDescription"]). reflexivity.
  - intros v Hv. repeat (apply elem_of_cons in Hv as [Hv|Hv]; [try discriminate|]).
    + injection Hv as ->. by eexists.
    + by apply elem_of_nil in Hv.
  - intros v Hv. repeat (apply elem_of_cons in Hv as [Hv|Hv]; [try discriminate|]).
    + injection Hv as ->. by eexists.
    + by apply elem_of_nil in Hv.
Defined.

Lemma missing_fields_reported_witness :
  exists difference : gset string,
    (forall k, k ∈ difference <->
       k ∈ header_keys /\
       k ∉ [("Title", VStr "a"); ("Template", VStr "t"); ("IsDraft", VInt 1)].*1) /\
    head_to_context ["Title: a"; "Template: t"; "IsDraft: 1"] "src/a.md" =
      Fatal [Lit "Missing header fields "; FSet difference;
             Lit " in the file "; FStr "src/a.md"; Lit "."].
Proof.
  apply (@missing_fields_reported iso_date).
  - repeat constructor.
    + known_line "a" conv_str.
    + known_line "t" conv_str.
    + known_line "1" conv_int.
  - exists "DatePublished". rewrite header_keys_eq. simpl. set_solver.
Defined.

Lemma unknown_key_reported_witness :
  head_to_context
    (["Title: Hello"] ++ "Author: me" :: ["Template: post.jinja2";
       "DatePublished: never"; "IsDraft: 0"]) "src/author.md" =
    Fatal [Lit "File "; FStr "src/author.md";
           Lit " has invalid header field: "; FStr (Py.strip "Author"); Lit "."].
Proof.
  refine (proj2 (@unknown_key_reported iso_date ["Title: Hello"] "Author: me"
                   _ "src/author.md" "Author" " me" _ _) _).
  - reflexivity.
  - rewrite header_keys_eq. vm_compute Py.strip. set_solver.
  - repeat constructor. exists ("Title", VStr "Hello"). known_line "Hello" conv_str.
Defined.

Lemma missing_colon_raises_witness :
  head_to_context
    (["Title: Hello"] ++ "Template post.jinja2" :: ["MetaDescription: m";
       "DatePublished: 2024-01-01"; "IsDraft: 0"]) "src/hello.md" =
    Raised ValueError.
Proof.
  refine (proj2 (@missing_colon_raises iso_date ["Title: Hello"]
                   "Template post.jinja2" _ "src/hello.md" _) _).
  - reflexivity.
  - repeat constructor. exists ("Title", VStr "Hello"). known_line "Hello" conv_str.
Defined.

Lemma repeated_key_last_wins_witness :
  exists (result : gmap string Value) (difference : gset string),
    head_loop "src/a.md" ∅
      ["Title: a"; "Title: b"; "Template: t"; "MetaDescription: m"; "IsDraft: 1"]
      = Ok result /\
    result !! "Title" = Some (VStr "b") /\
    (forall a, a ∈ difference <-> a ∈ header_keys /\ a ∉ dom result) /\
    (exists a, a ∈ difference) /\ ("Title" ∉ difference) /\
    head_to_context
      ["Title: a"; "Title: b"; "Template: t"; "MetaDescription: m"; "IsDraft: 1"]
      "src/a.md" =
      Fatal [Lit "Missing header fields "; FSet difference;
             Lit " in the file "; FStr "src/a.md"; Lit "."].
Proof.
  apply (@repeated_key_last_wins iso_date _ "src/a.md" [] "Title" (VStr "a") []
           (VStr "b")
           [("Template", VStr "t"); ("MetaDescription", VStr "m");
            ("IsDraft", VInt 1)]).
  - reflexivity.
  - repeat constructor.
    + known_line "a" conv_str.
    + known_line "b" conv_str.
    + known_line "t" conv_str.
    + known_line "m" conv_str.
    + known_line "1" conv_int.
  - simpl. set_solver.
Defined.

Lemma short_document_aborts_witness :
  run site_env
    ([post "jan" "January" "post.jinja2" "2024-01-01" "0"] ++ short_post :: [])
    fresh_site =
    (mkSite (<["jan.html" := "January"]> ∅) None
            [[Lit "Rendered "; FStr "posts/jan.html"; Lit "."]],
     Fatal [Lit "Not all header provided in "; FStr (src_path short_post)]).
Proof.
  refine (proj2 (@short_document_aborts iso_date site_env short_post _)
            _ _ fresh_site _
            [mkRenderRecord _ "src/jan.md" "posts/jan.html" "January" (2024, 1, 1) 0]
            _).
  - vm_compute. lia.
  - vm_compute. reflexivity.
Defined.

Lemma drafts_are_not_filtered_witness :
  exists render_paths template context,
    Forall2 record_of three_posts render_paths /\
    (forall d, d ∈ three_posts ->
       out_name d ∈ dom (posts (run site_env three_posts fresh_site).1)) /\
    index_posts render_paths ≡ₚ render_paths /\
    get_template site_env "index.jinja2" = Some template /\
    context !! "posts" = Some (VPosts (index_posts render_paths)) /\
    index_html (run site_env three_posts fresh_site).1 = Some (template context).
Proof.
  apply (proj2 (@drafts_are_not_filtered iso_date site_env)
           three_posts fresh_site).
  vm_compute. reflexivity.
Defined.

Lemma missing_index_template_witness :
  (forall d, d ∈ three_posts ->
     out_name d ∈
       dom (posts (render_files no_index_env three_posts (emptied fresh_site) []).1)) /\
  run no_index_env three_posts fresh_site =
    (mkSite (posts (render_files no_index_env three_posts (emptied fresh_site) []).1)
            (Some "")
            (log (render_files no_index_env three_posts (emptied fresh_site) []).1),
     Raised (TemplateNotFound "index.jinja2")).
Proof.
  apply (proj2 (@missing_index_template iso_date no_index_env three_posts
                  fresh_site eq_refl) _ three_records).
  vm_compute. reflexivity.
Defined.

(** ** Where the first wording of a property fails *)

(** Five lines of the [Key: value] shape with keys of the schema and no
    [DatePublished] line: the run ends on the value of [IsDraft], and the
    missing field is not reported. *)
Lemma missing_field_unreported :
  let head := ["Title: a"; "Title: b"; "Template: t"; "MetaDescription: m";
               "IsDraft: maybe"] in
  Forall (fun line => exists k v, key_value line = Some (k, v) /\ k ∈ header_keys)
    head /\
  "DatePublished" ∈ header_keys /\
  (forall line v, line ∈ head -> key_value line <> Some ("DatePublished", v)) /\
  head_to_context head "src/a.md" =
    Fatal [Lit "Unable to parse "; FStr "IsDraft"; Lit " from ";
           FStr "src/a.md"; Lit "."] /\
  (forall X, head_to_context head "src/a.md" <>
     Fatal [Lit "Missing header fields "; FSet X; Lit " in the file ";
            FStr "src/a.md"; Lit "."]).
Proof.
  simpl. split; [|split; [|split; [|split]]].
  - repeat constructor; eexists _, _; (split; [reflexivity|]);
      rewrite header_keys_eq; set_solver.
  - rewrite header_keys_eq. set_solver.
  - intros line v Hin.
    repeat (apply elem_of_cons in Hin as [->|Hin]; [by vm_compute|]).
    by apply elem_of_nil in Hin.
  - reflexivity.
  - intros X. by vm_compute.
Qed.

(** A header with the line [Author: me], whose key is outside the schema,
    after a line whose value does not convert: the run ends on that earlier
    line and the message does not carry [Author]. *)
Lemma unknown_key_unreported :
  let head := ["IsDraft: maybe"; "Author: me"; "Title: t"; "Template: p";
               "MetaDescription: m"] in
  "Author: me" ∈ head /\
  key_value "Author: me" = Some ("Author", "me") /\
  ("Author" ∉ header_keys) /\
  head_to_context head "src/a.md" =
    Fatal [Lit "Unable to parse "; FStr "IsDraft"; Lit " from ";
           FStr "src/a.md"; Lit "."] /\
  ~ mentions [Lit "Unable to parse "; FStr "IsDraft"; Lit " from ";
              FStr "src/a.md"; Lit "."] "Author".
Proof.
  simpl. split; [|split; [|split; [|split]]].
  - set_solver.
  - reflexivity.
  - rewrite header_keys_eq. set_solver.
  - reflexivity.
  - unfold mentions. intros Hin.
    repeat (apply elem_of_cons in Hin as [Hin|Hin]; [discriminate|]).
    by apply elem_of_nil in Hin.
Qed.

(** A header with a line that has no colon, after a line whose key is
    outside the schema: the parser ends through the logged message and
    exit, and raises nothing. *)
Lemma missing_colon_unraised :
  let head := ["Author: me"; "Template post.jinja2"; "Title: t";
               "MetaDescription: m"; "IsDraft: 0"] in
  "Template post.jinja2" ∈ head /\
  Py.split1 ":" "Template post.jinja2" = None /\
  head_to_context head "src/a.md" =
    Fatal [Lit "File "; FStr "src/a.md"; Lit " has invalid header field: ";
           FStr "Author"; Lit "."] /\
  (forall e, head_to_context head "src/a.md" <> Raised e).
Proof.
  simpl. split; [|split; [|split]].
  - set_solver.
  - reflexivity.
  - reflexivity.
  - intros e. by vm_compute.
Qed.

(** Five lines with keys of the schema, [IsDraft] twice and no
    [DatePublished]: the first [IsDraft] value does not convert, so the run
    ends there; the later value is never stored and no missing field is
    reported. *)
Lemma repeated_key_first_value_fails :
  let head := ["IsDraft: maybe"; "IsDraft: 1"; "Title: t"; "Template: p";
               "MetaDescription: m"] in
  length head = HEADER_LINES /\
  key_value "IsDraft: maybe" = Some ("IsDraft", "maybe") /\
  key_value "IsDraft: 1" = Some ("IsDraft", "1") /\
  "IsDraft" ∈ header_keys /\
  head_loop "src/a.md" ∅ head =
    Fatal [Lit "Unable to parse "; FStr "IsDraft"; Lit " from ";
           FStr "src/a.md"; Lit "."] /\
  head_to_context head "src/a.md" =
    Fatal [Lit "Unable to parse "; FStr "IsDraft"; Lit " from ";
           FStr "src/a.md"; Lit "."].
Proof.
  simpl. split; [reflexivity|]. split; [reflexivity|]. split; [reflexivity|].
  split; [rewrite header_keys_eq; set_solver|]. split; reflexivity.
Qed.

(** A document of two lines enumerated after a document with a header field
    outside the schema: the run ends on the earlier document, and the
    message carries that document's path, not the short one's. *)
Lemma short_document_unreported :
  (length (Py.readlines (content short_post)) < HEADER_LINES)%nat /\
  run bare_env [author_post; short_post] fresh_site =
    (fresh_site,
     Fatal [Lit "File "; FStr "src/author.md";
            Lit " has invalid header field: "; FStr "Author"; Lit "."]) /\
  ~ mentions [Lit "File "; FStr "src/author.md";
              Lit " has invalid header field: "; FStr "Author"; Lit "."]
      (src_path short_post).
Proof.
  split; [vm_compute; lia|]. split; [reflexivity|].
  unfold mentions. intros Hin.
  repeat (apply elem_of_cons in Hin as [Hin|Hin]; [by vm_compute in Hin|]).
  by apply elem_of_nil in Hin.
Qed.

(** A document whose header parses, draft flag 1, in a site whose template
    directory lacks its template: the run ends, nothing is written to the
    posts directory and there is no index. *)
Lemma parsed_document_unrendered :
  let d := post "draft" "Draft" "post.jinja2" "2024-03-01" "1" in
  (exists head text context,
     Py.next_n HEADER_LINES (content d) = Some (head, text) /\
     head_to_context head (src_path d) = Ok context /\
     context !! "IsDraft" = Some (VInt 1)) /\
  run bare_env [d] fresh_site =
    (fresh_site,
     Fatal [Lit "Template "; FBool false; Lit " does not exists."]) /\
  posts fresh_site !! out_name d = None /\
  index_html fresh_site = None.
Proof.
  simpl. split; [|split; [|split]]; [|reflexivity..].
  eexists _, _, _. split; [reflexivity|]. split; reflexivity.
Qed.

(** A site without [index.jinja2] whose only document has two lines: the
    run ends through the logged message and exit, the template is never
    looked up and nothing is raised. *)
Lemma missing_index_template_unraised :
  get_template bare_env "index.jinja2" = None /\
  run bare_env [short_post] fresh_site =
    (fresh_site,
     Fatal [Lit "Not all header provided in "; FStr "src/short.md"]) /\
  (forall st e, run bare_env [short_post] fresh_site <> (st, Raised e)).
Proof.
  split; [reflexivity|]. split; [reflexivity|]. intros st e. by vm_compute.
Qed.

(** ** The message for a missing template *)

(** C3.  The document [post.md] names the template [nonexistent.jinja2],
    which the template directory does not have.  The run ends before
    anything is written, with one message logged.  The name bound by the
    walrus in [if tpl := ....exists():] is the result of [exists()], so the
    message reads [Template False does not exists.] and does not carry the
    name of the template. *)
Theorem missing_template_message :
  let d := post "post" "Hello" "nonexistent.jinja2" "2024-01-01" "0" in
  let msg := [Lit "Template "; FBool false; Lit " does not exists."] in
  tpl_exists site_env "nonexistent.jinja2" = false /\
  run site_env [d] fresh_site = (fresh_site, Fatal msg) /\
  posts fresh_site !! out_name d = None /\
  message_text msg = Some "Template False does not exists." /\
  ~ mentions msg "nonexistent.jinja2".
Proof.
  simpl. split; [reflexivity|]. split; [reflexivity|]. split; [reflexivity|].
  split; [reflexivity|]. unfold mentions. intros Hin.
  repeat (apply elem_of_cons in Hin as [Hin|Hin]; [discriminate|]).
  by apply elem_of_nil in Hin.
Qed.

(** * More of the script *)

(** ** Splitting and stripping a header line *)

Lemma split1_Some sep s k v :
  Py.split1 sep s = Some (k, v) ->
  s = k +:+ String sep v /\ Py.split1 sep k = None.
Proof.
  revert k. induction s as [|c s IH]; intros k E; simpl in E; [done|].
  destruct (Ascii.eqb c sep) eqn:Ec.
  - injection E as <- <-. apply Ascii.eqb_eq in Ec as ->. done.
  - destruct (Py.split1 sep s) as [[k' v']|]; [|done]. injection E as <- <-.
    destruct (IH k' eq_refl) as [-> Hk]. simpl. by rewrite Ec, Hk.
Qed.

Lemma split1_join sep k v :
  Py.split1 sep k = None -> Py.split1 sep (k +:+ String sep v) = Some (k, v).
Proof.
  induction k as [|c k IH]; simpl.
  - by rewrite Ascii.eqb_refl.
  - destruct (Ascii.eqb c sep); [done|].
    destruct (Py.split1 sep k) as [[? ?]|]; [done|]. intros _. by rewrite IH.
Qed.

(** X1.  [line.split(":", 1)] cuts at the first colon only: when it gives a
    key and a value, the line is the key, a colon and the value, and the key
    has no colon, whatever the value holds; and a key without colon joined
    to any value by a colon splits back into the two. *)
Theorem split_at_first_colon line key value :
  (Py.split1 ":" line = Some (key, value) <->
   line = key +:+ String ":" value /\ Py.split1 ":" key = None).
Proof.
  split.
  - apply split1_Some.
  - intros [-> Hk]. by apply split1_join.
Qed.

Lemma lstrip_blank a s : blank a = true -> Py.lstrip (a +:+ s) = Py.lstrip s.
Proof.
  induction a as [|c a IH]; simpl; [done|].
  intros [Hc Ha]%andb_true_iff. rewrite Hc. by apply IH.
Qed.

Lemma rstrip_blank_nil b : blank b = true -> Py.rstrip b = EmptyString.
Proof.
  induction b as [|c b IH]; simpl; [done|].
  intros [Hc Hb]%andb_true_iff. by rewrite (IH Hb), Hc.
Qed.

Lemma rstrip_blank s b : blank b = true -> Py.rstrip (s +:+ b) = Py.rstrip s.
Proof.
  intros Hb. induction s as [|c s IH]; simpl.
  - by apply rstrip_blank_nil.
  - by rewrite IH.
Qed.

Lemma lstrip_blank_nil b : blank b = true -> Py.lstrip b = EmptyString.
Proof.
  induction b as [|c b IH]; simpl; [done|].
  intros [Hc Hb]%andb_true_iff. rewrite Hc. by apply IH.
Qed.

Lemma strip_blank_r s b : blank b = true -> Py.strip (s +:+ b) = Py.strip s.
Proof.
  intros Hb. unfold Py.strip. induction s as [|c s IH].
  - change (EmptyString +:+ b) with b. by rewrite (lstrip_blank_nil b Hb).
  - change (String c s +:+ b) with (String c (s +:+ b)).
    cbn [Py.lstrip]. destruct (Py.isspace c); [done|].
    change (String c (s +:+ b)) with (String c s +:+ b). by apply rstrip_blank.
Qed.

Lemma strip_blank a s b :
  blank a = true -> blank b = true -> Py.strip (a +:+ s +:+ b) = Py.strip s.
Proof.
  intros Ha Hb. unfold Py.strip. rewrite (lstrip_blank _ _ Ha).
  by apply strip_blank_r.
Qed.

Lemma blank_no_colon a : blank a = true -> Py.split1 ":" a = None.
Proof.
  induction a as [|c a IH]; simpl; [done|].
  intros [Hc Ha]%andb_true_iff. rewrite (IH Ha).
  destruct (Ascii.eqb c ":") eqn:E; [|done].
  apply Ascii.eqb_eq in E as ->. done.
Qed.

Lemma split1_None_app sep a b :
  Py.split1 sep a = None -> Py.split1 sep b = None ->
  Py.split1 sep (a +:+ b) = None.
Proof.
  induction a as [|c a IH]; simpl; [done|].
  destruct (Ascii.eqb c sep); [done|].
  destruct (Py.split1 sep a) as [[? ?]|]; [done|]. intros _ Hb. by rewrite IH.
Qed.

(** X2.  White space around the key and around the value of a header line,
    the line feed that [next] leaves at its end included, plays no part:
    the line gives the same key and value as the line without it. *)
Theorem key_value_padding a key b c value d :
  blank a = true -> blank b = true -> blank c = true -> blank d = true ->
  Py.split1 ":" key = None ->
  key_value ((a +:+ key +:+ b) +:+ String ":" (c +:+ value +:+ d))
  = key_value (key +:+ String ":" value).
Proof.
  intros Ha Hb Hc Hd Hk. unfold key_value.
  rewrite (split1_join ":" key value Hk).
  rewrite split1_join.
  - by rewrite !strip_blank.
  - apply split1_None_app; [by apply blank_no_colon|].
    apply split1_None_app; [done|by apply blank_no_colon].
Qed.

Lemma key_value_padding_witness :
  key_value ((" " +:+ "Title" +:+ " ") +:+ String ":" (" " +:+ "a: b" +:+ nl))
  = key_value ("Title" +:+ String ":" "a: b").
Proof.
  apply (key_value_padding " " "Title" " " " " "a: b" nl); reflexivity.
Defined.

(** ** The header lines and the body *)

Lemma next_None f : Py.next f = None -> f = EmptyString.
Proof.
  destruct f as [|c f]; [done|]. simpl.
  destruct (Ascii.eqb c "010"); [done|]. by destruct (Py.next f) as [[? ?]|].
Qed.

Lemma next_joined f l r : Py.next f = Some (l, r) -> l +:+ r = f.
Proof.
  revert l r. induction f as [|c f IH]; intros l r E; simpl in E; [done|].
  destruct (Ascii.eqb c "010").
  - by injection E as <- <-.
  - destruct (Py.next f) as [[l' r']|] eqn:En.
    + injection E as <- <-.
      change (String c l' +:+ r') with (String c (l' +:+ r')).
      by rewrite (IH l' r' eq_refl).
    + injection E as <- <-. by rewrite (next_None f En).
Qed.

Lemma next_one_line f l r : Py.next f = Some (l, r) -> one_line l = true.
Proof.
  revert l r. induction f as [|c f IH]; intros l r E; simpl in E; [done|].
  destruct (Ascii.eqb c "010") eqn:Ec.
  - by injection E as <- <-.
  - destruct (Py.next f) as [[l' r']|].
    + injection E as <- <-. specialize (IH l' r' eq_refl). simpl.
      destruct l'; [done|]. by rewrite Ec.
    + by injection E as <- <-.
Qed.

(** X3.  Reading the header splits the file and loses nothing: the lines
    read, put back together and followed by the text left for the body, are
    the file; there are as many lines as were asked for, none of them is
    empty and none has a line feed before its end. *)
Theorem header_and_body n f head text :
  Py.next_n n f = Some (head, text) ->
  joined head text = f /\ length head = n /\
  Forall (fun l => one_line l = true) head.
Proof.
  revert f head text. induction n as [|n IH]; intros f head text E; simpl in E.
  - by injection E as <- <-.
  - destruct (Py.next f) as [[l f']|] eqn:En; [|done].
    destruct (Py.next_n n f') as [[ls r]|] eqn:Er; [|done].
    injection E as <- <-. destruct (IH _ _ _ Er) as (Hj & Hl & Hf).
    split; [|split].
    + unfold joined in *. simpl. rewrite Hj. by apply next_joined.
    + simpl. by rewrite Hl.
    + constructor; [|done]. by apply (next_one_line f l f').
Qed.

Lemma header_and_body_witness :
  joined ["Title: Short" +:+ nl] ("Template: post.jinja2" +:+ nl)
    = content short_post /\
  length ["Title: Short" +:+ nl] = 1%nat /\
  Forall (fun l => one_line l = true) ["Title: Short" +:+ nl].
Proof.
  apply (header_and_body 1 (content short_post)). reflexivity.
Defined.

(** ** What [head_to_context] returns and how it ends *)

Lemma Forall2_Permutation_l {A B} (R : A -> B -> Prop) l l' k :
  l ≡ₚ l' -> Forall2 R l k -> exists k', k ≡ₚ k' /\ Forall2 R l' k'.
Proof.
  intros P. revert k. induction P as [|x l l' P IH|x y l|l l1 l2 P1 IH1 P2 IH2];
    intros k F.
  - exists k. by split.
  - inversion F as [|? b ? k0 Hx F0]; subst.
    destruct (IH _ F0) as (k' & Pk & F'). exists (b :: k'). split; [by constructor|].
    by constructor.
  - inversion F as [|? b ? k0 Hy F0]; subst.
    inversion F0 as [|? b' ? k1 Hx F1]; subst.
    exists (b' :: b :: k1). split; [apply Permutation_swap|]. by repeat constructor.
  - destruct (IH1 _ F) as (k1 & Pk1 & F1). destruct (IH2 _ F1) as (k2 & Pk2 & F2).
    exists k2. split; [by etrans|done].
Qed.

Lemma NoDup_of_size (l : list string) :
  size (list_to_set l : gset string) = length l -> NoDup l.
Proof.
  induction l as [|x l IH]; [constructor|]. rewrite list_to_set_cons. simpl.
  intros Hs. destruct (decide (x ∈ l)) as [Hin|Hn].
  - assert (({[x]} ∪ list_to_set l : gset string) = list_to_set l) as Heq
      by set_solver.
    rewrite Heq in Hs. pose proof (size_list_to_set_le l). lia.
  - rewrite size_union, size_singleton in Hs by set_solver.
    constructor; [done|]. apply IH. lia.
Qed.

Section ParserOutcome.
Context `{DateTime}.

(** The keys stored are keys of the schema. *)
Lemma parses_to_keys head kxs :
  Forall2 parses_to head kxs -> list_to_set kxs.*1 ⊆ header_keys.
Proof.
  induction 1 as [|line kx head kxs P F IH]; [set_solver|].
  apply parses_to_known in P as (? & ? & _ & _ & Hk).
  rewrite fmap_cons, list_to_set_cons. set_solver.
Qed.

(** When a mapping is returned, every line passed and the keys stored are
    the keys of the schema. *)
Lemma head_ok_inv head path context :
  head_to_context head path = Ok context ->
  exists kxs, Forall2 parses_to head kxs /\ context = store ∅ kxs /\
    (list_to_set kxs.*1 : gset string) = header_keys /\
    dom context = header_keys.
Proof.
  unfold head_to_context. intros E.
  destruct (head_loop path ∅ head) as [result| |] eqn:El; [|done..].
  destruct (decide _) as [Hd|]; [|done]. injection E as <-.
  apply head_loop_inv in El as (kxs & F & ->). exists kxs.
  assert (Hdom : dom (store (∅ : gmap string Value) kxs) = list_to_set kxs.*1).
  { rewrite dom_store, dom_empty_L. apply (left_id_L ∅ (∪)). }
  assert (Hk : (list_to_set kxs.*1 : gset string) = header_keys).
  { apply set_eq. intros k. split.
    - apply (parses_to_keys _ _ F).
    - intros Hk. rewrite <- Hdom.
      destruct (decide (k ∈ dom (store (∅ : gmap string Value) kxs)))
        as [|Hn]; [done|].
      assert (k ∈ header_keys ∖ dom (store (∅ : gmap string Value) kxs)) as Hin
        by (by apply elem_of_difference).
      rewrite Hd in Hin. by apply not_elem_of_empty in Hin. }
  repeat split; try done. by rewrite Hdom.
Qed.

Lemma head_loop_fatal path result head msg :
  head_loop path result head = Fatal msg ->
  (exists key, (key ∉ header_keys) /\ msg = invalid_field_msg path key) \/
  (exists key, key ∈ header_keys /\ msg = unable_to_parse_msg key path).
Proof.
  revert result. induction head as [|line rest IH]; intros result E; [done|].
  simpl in E.
  destruct (Py.split1 ":" line) as [[key value]|]; [|done].
  destruct (decide _) as [Hk|Hk].
  - destruct (HEADERS !! Py.strip key) as [c|]; [|done].
    destruct (convert c (Py.strip value)); [by apply (IH _ E)|].
    injection E as <-. right. by exists (Py.strip key).
  - injection E as <-. left. by exists (Py.strip key).
Qed.

Lemma head_fatal_cases head path msg :
  head_to_context head path = Fatal msg ->
  (exists key, (key ∉ header_keys) /\ msg = invalid_field_msg path key) \/
  (exists key, key ∈ header_keys /\ msg = unable_to_parse_msg key path) \/
  (exists difference : gset string,
     difference <> ∅ /\ difference ⊆ header_keys /\
     msg = missing_fields_msg difference path).
Proof.
  unfold head_to_context. intros E.
  destruct (head_loop path ∅ head) as [result| |] eqn:El; [| |done].
  - destruct (decide _) as [|Hd]; [done|]. injection E as <-.
    right. right. exists (header_keys ∖ dom result).
    split; [done|]. split; [set_solver|done].
  - injection E as <-. apply head_loop_fatal in El as [?|?]; auto.
Qed.

Lemma head_loop_raised path result head e :
  head_loop path result head = Raised e ->
  e = ValueError /\ exists line, line ∈ head /\ Py.split1 ":" line = None.
Proof.
  revert result. induction head as [|line rest IH]; intros result E; [done|].
  simpl in E.
  destruct (Py.split1 ":" line) as [[key value]|] eqn:Es.
  - destruct (decide _) as [Hk|Hk]; [|done].
    apply HEADERS_is_Some in Hk as [c Hc]. rewrite Hc in E.
    destruct (convert c (Py.strip value)); [|done].
    destruct (IH _ E) as (-> & line' & Hin & Hs).
    split; [done|]. exists line'. split; [apply elem_of_cons; by right|done].
  - injection E as <-. split; [done|]. exists line.
    split; [apply elem_of_cons; by left|done].
Qed.

Lemma head_raised head path e :
  head_to_context head path = Raised e ->
  e = ValueError /\ exists line, line ∈ head /\ Py.split1 ":" line = None.
Proof.
  unfold head_to_context. intros E.
  destruct (head_loop path ∅ head) as [result| |] eqn:El; [|done|].
  - by destruct (decide _).
  - injection E as <-. by apply head_loop_raised in El.
Qed.

(** Lines that all pass and cover the schema give the stored mapping. *)
Lemma head_to_context_ok head path kxs :
  Forall2 parses_to head kxs ->
  header_keys ⊆ list_to_set kxs.*1 ->
  head_to_context head path = Ok (store ∅ kxs).
Proof.
  intros F Hk. unfold head_to_context. rewrite (head_loop_all _ _ _ _ F).
  rewrite dom_store, dom_empty_L, decide_True; [done|]. set_solver.
Qed.

(** X4.  A header line with a key of the schema whose value does not convert
    ends the run with the message that carries that key and the path of the
    file, when every line before it passes.  Text always converts, so the
    key is [DatePublished] or [IsDraft]. *)
Theorem unparseable_value_reported pre line post path key value c :
  Forall (fun l => exists kx, parses_to l kx) pre ->
  Py.split1 ":" line = Some (key, value) ->
  HEADERS !! Py.strip key = Some c ->
  convert c (Py.strip value) = None ->
  head_to_context (pre ++ line :: post) path =
    Fatal [Lit "Unable to parse "; FStr (Py.strip key); Lit " from ";
           FStr path; Lit "."] /\
  (Py.strip key = "DatePublished" \/ Py.strip key = "IsDraft").
Proof.
  intros F Es Hc Hv. split.
  - apply Forall_exists_Forall2_l in F as [kxs F]. unfold head_to_context.
    rewrite (head_loop_app _ _ _ _ _ F).
    by rewrite (head_loop_unparsed _ _ _ _ _ _ _ Es Hc Hv).
  - apply HEADERS_lookup in Hc.
    destruct Hc as [[_ ->]|[[_ ->]|[[_ ->]|[[-> _]|[-> _]]]]]; try done; auto.
Qed.

(** X5.  Whatever the header and however many lines it has, a mapping that
    [head_to_context] returns has the five keys of the schema and no other,
    with text under [Title], [Template] and [MetaDescription], a date under
    [DatePublished] and an integer under [IsDraft]. *)
Theorem returned_context_shape head path context :
  head_to_context head path = Ok context ->
  exists title template descr d z,
    context =
      <["Title" := VStr title]> (<["Template" := VStr template]> (
      <["MetaDescription" := VStr descr]> (<["DatePublished" := VDate d]> (
      <["IsDraft" := VInt z]> ∅)))).
Proof.
  intros E.
  destruct (context_types _ _ _ E) as (t & tp & ds & d & z & E1 & E2 & E3 & E4 & E5).
  destruct (head_ok_inv _ _ _ E) as (kxs & _ & _ & _ & Hdom).
  exists t, tp, ds, d, z. apply map_eq. intros k.
  destruct (decide (k ∈ header_keys)) as [Hk|Hk].
  - rewrite header_keys_eq in Hk.
    assert (Hc : k = "Title" \/ k = "Template" \/ k = "MetaDescription" \/
                 k = "DatePublished" \/ k = "IsDraft") by set_solver.
    destruct Hc as [-> | [-> | [-> | [-> | ->]]]]; by simplify_map_eq.
  - assert (context !! k = None) as -> by (apply not_elem_of_dom; by rewrite Hdom).
    rewrite header_keys_eq in Hk. symmetry.
    rewrite !lookup_insert_ne by set_solver. apply lookup_empty.
Qed.

Lemma parses_to_lines head kxs :
  Forall2 parses_to head kxs ->
  exists kvs : list (string * string),
    Forall2 (fun line kv => key_value line = Some kv) head kvs /\
    Forall2 (fun kv kx => kx.1 = kv.1 /\ exists c,
      HEADERS !! kv.1 = Some c /\ convert c kv.2 = Some kx.2) kvs kxs.
Proof.
  induction 1 as [|line [k x] head kxs (value & c & E & Hc & Hv) F (kvs & F1 & F2)].
  - exists []. split; constructor.
  - exists ((k, value) :: kvs). split; constructor; try done.
    split; [done|]. by exists c.
Qed.

(** X6.  A mapping is returned only for at least five lines; and for five
    lines only when every line has a colon, the stripped keys are the five
    fields of the schema, each once, and every value converts, the mapping
    holding the converted value under each key. *)
Theorem returned_only_for_complete_header head path context :
  head_to_context head path = Ok context ->
  (HEADER_LINES <= length head)%nat /\
  (length head = HEADER_LINES ->
   exists kvs : list (string * string),
     Forall2 (fun line kv => key_value line = Some kv) head kvs /\
     kvs.*1 ≡ₚ ["Title"; "Template"; "MetaDescription"; "DatePublished"; "IsDraft"] /\
     Forall (fun kv => exists c x, HEADERS !! kv.1 = Some c /\
       convert c kv.2 = Some x /\ context !! kv.1 = Some x) kvs).
Proof.
  intros E. destruct (head_ok_inv _ _ _ E) as (kxs & F & -> & Hk & _).
  pose proof (Forall2_length _ _ _ F) as Hlen.
  pose proof (size_list_to_set_le kxs.*1) as Hle.
  rewrite Hk, size_header_keys, length_fmap in Hle.
  split; [unfold HEADER_LINES; lia|]. intros H5.
  assert (ND : NoDup kxs.*1).
  { apply NoDup_of_size. rewrite Hk, size_header_keys, length_fmap.
    unfold HEADER_LINES in H5. lia. }
  destruct (parses_to_lines _ _ F) as (kvs & F1 & F2).
  pose proof (Forall2_fst_eq _ _ _ F2) as Hfst.
  exists kvs. split; [done|]. split.
  - rewrite <- Hfst. apply NoDup_Permutation; [done| |].
    + repeat (apply NoDup_cons; split; [set_solver|]). constructor.
    + intros k. rewrite <- (elem_of_list_to_set (C:=gset string)), Hk, header_keys_eq.
      set_solver.
  - apply Forall_forall. intros kv Hin.
    apply list_elem_of_lookup in Hin as [i Hi].
    destruct (Forall2_lookup_l _ _ _ _ _ F2 Hi) as ([k x] & Hi' & Hkk & c & Hc & Hx).
    simpl in *. subst k. exists c, x. repeat split; try done.
    apply store_lookup_nodup; [done|]. apply list_elem_of_lookup. eauto.
Qed.

Lemma store_perm (kxs kxs' : list (string * Value)) :
  NoDup kxs.*1 -> kxs ≡ₚ kxs' -> store ∅ kxs = store ∅ kxs'.
Proof.
  intros ND P. assert (ND' : NoDup kxs'.*1) by (by rewrite <- P).
  apply map_eq. intros k.
  destruct (store ∅ kxs !! k) as [x|] eqn:E.
  - apply store_lookup_elem in E. rewrite P in E. symmetry.
    by apply store_lookup_nodup.
  - destruct (store ∅ kxs' !! k) as [x'|] eqn:E'; [|done].
    apply store_lookup_elem in E'. rewrite <- P in E'.
    by rewrite (store_lookup_nodup _ _ _ _ ND E') in E.
Qed.

(** X7.  For a header of five lines the order of the lines plays no part,
    and neither does the path: if the header gives a mapping, the same
    lines in any order, with any path, give the same mapping. *)
Theorem header_order_irrelevant head head' path path' context :
  length head = HEADER_LINES ->
  head ≡ₚ head' ->
  head_to_context head path = Ok context ->
  head_to_context head' path' = Ok context.
Proof.
  intros H5 P E. destruct (head_ok_inv _ _ _ E) as (kxs & F & -> & Hk & _).
  assert (ND : NoDup kxs.*1).
  { apply NoDup_of_size. rewrite Hk, size_header_keys, length_fmap.
    apply Forall2_length in F. unfold HEADER_LINES in H5. lia. }
  destruct (Forall2_Permutation_l _ _ _ _ P F) as (kxs' & Pk & F').
  unfold head_to_context. rewrite (head_loop_all _ _ _ _ F').
  rewrite <- (store_perm _ _ ND Pk).
  assert (Hdom : dom (store (∅ : gmap string Value) kxs) = header_keys).
  { rewrite dom_store, dom_empty_L, <- Hk. apply (left_id_L ∅ (∪)). }
  rewrite Hdom, decide_True; [done|]. set_solver.
Qed.

(** X8.  Every message with which the parser ends the run carries the path
    of the file: it is the message about a key outside the schema, the one
    about a value that does not convert, for a key of the schema, or the
    one about missing fields, with a non-empty set of schema fields. *)
Theorem parser_messages_name_the_file head path msg :
  head_to_context head path = Fatal msg ->
  mentions msg path /\
  ((exists key, (key ∉ header_keys) /\ msg = invalid_field_msg path key) \/
   (exists key, key ∈ header_keys /\ msg = unable_to_parse_msg key path) \/
   (exists difference : gset string,
      difference <> ∅ /\ difference ⊆ header_keys /\
      msg = missing_fields_msg difference path)).
Proof.
  intros E. pose proof (head_fatal_cases _ _ _ E) as Hc. split; [|done].
  unfold mentions.
  destruct Hc as [(k & _ & ->)|[(k & _ & ->)|(X & _ & _ & ->)]];
    unfold invalid_field_msg, unable_to_parse_msg, missing_fields_msg;
    set_solver.
Qed.

(** X9.  The only exception that escapes [head_to_context] is the
    [ValueError] of unpacking the split of a line without colon: looking a
    key up in [HEADERS] never fails, the key having been checked first. *)
Theorem parser_raises_only_on_missing_colon head path e :
  head_to_context head path = Raised e ->
  e = ValueError /\ exists line, line ∈ head /\ Py.split1 ":" line = None.
Proof.
  unfold head_to_context. intros E.
  destruct (head_loop path ∅ head) as [result| |] eqn:El; [|done|].
  - by destruct (decide _).
  - injection E as <-. by apply head_loop_raised in El.
Qed.

End ParserOutcome.

Lemma sample_lines_parse :
  head_to_context sample_lines "src/hello.md" = Ok sample_context.
Proof.
  apply (@head_to_context_ok iso_date sample_lines "src/hello.md" sample_bindings).
  - repeat constructor.
    + known_line "0" conv_int.
    + known_line "Hello" conv_str.
    + known_line "2024-06-01" conv_parse.
    + known_line "post.jinja2" conv_str.
    + known_line "first: post" conv_str.
  - rewrite header_keys_eq. simpl. set_solver.
Qed.

Lemma unparseable_value_reported_witness :
  head_to_context
    (["Title: Hello"] ++ "DatePublished: 2024-13-01" :: ["IsDraft: 0"])
    "src/hello.md" =
    Fatal [Lit "Unable to parse "; FStr (Py.strip "DatePublished");
           Lit " from "; FStr "src/hello.md"; Lit "."] /\
  (Py.strip "DatePublished" = "DatePublished" \/
   Py.strip "DatePublished" = "IsDraft").
Proof.
  apply (@unparseable_value_reported iso_date ["Title: Hello"]
           "DatePublished: 2024-13-01" ["IsDraft: 0"] "src/hello.md"
           "DatePublished" " 2024-13-01" conv_parse).
  - repeat constructor. exists ("Title", VStr "Hello"). known_line "Hello" conv_str.
  - reflexivity.
  - reflexivity.
  - reflexivity.
Defined.

Lemma returned_context_shape_witness :
  exists title template descr d z,
    store (∅ : gmap string Value)
      [("IsDraft", VInt 0); ("Title", VStr "Hello");
       ("DatePublished", VDate (2024, 6, 1)); ("Template", VStr "post.jinja2");
       ("MetaDescription", VStr "m"); ("IsDraft", VInt 1)] =
      <["Title" := VStr title]> (<["Template" := VStr template]> (
      <["MetaDescription" := VStr descr]> (<["DatePublished" := VDate d]> (
      <["IsDraft" := VInt z]> ∅)))).
Proof.
  apply (@returned_context_shape iso_date
           ["IsDraft: 0"; "Title: Hello"; "DatePublished: 2024-06-01";
            "Template: post.jinja2"; "MetaDescription: m"; "IsDraft: 1"]
           "src/hello.md").
  apply head_to_context_ok.
  - repeat constructor.
    + known_line "0" conv_int.
    + known_line "Hello" conv_str.
    + known_line "2024-06-01" conv_parse.
    + known_line "post.jinja2" conv_str.
    + known_line "m" conv_str.
    + known_line "1" conv_int.
  - rewrite header_keys_eq. simpl. set_solver.
Defined.

Lemma returned_only_for_complete_header_witness :
  (HEADER_LINES <= length sample_lines)%nat /\
  (length sample_lines = HEADER_LINES ->
   exists kvs : list (string * string),
     Forall2 (fun line kv => key_value line = Some kv) sample_lines kvs /\
     kvs.*1 ≡ₚ ["Title"; "Template"; "MetaDescription"; "DatePublished"; "IsDraft"] /\
     Forall (fun kv => exists c x, HEADERS !! kv.1 = Some c /\
       convert c kv.2 = Some x /\
       sample_context !! kv.1 = Some x) kvs).
Proof.
  apply (@returned_only_for_complete_header iso_date sample_lines "src/hello.md").
  apply sample_lines_parse.
Defined.

Lemma header_order_irrelevant_witness :
  head_to_context (rev sample_lines) "src/other.md" = Ok sample_context.
Proof.
  apply (@header_order_irrelevant iso_date sample_lines (rev sample_lines)
           "src/hello.md" "src/other.md").
  - reflexivity.
  - apply Permutation_rev.
  - apply sample_lines_parse.
Defined.

Lemma parser_messages_name_the_file_witness :
  mentions (invalid_field_msg "src/a.md" (Py.strip "Author")) "src/a.md" /\
  ((exists key, (key ∉ header_keys) /\
      invalid_field_msg "src/a.md" (Py.strip "Author")
      = invalid_field_msg "src/a.md" key) \/
   (exists key, key ∈ header_keys /\
      invalid_field_msg "src/a.md" (Py.strip "Author")
      = unable_to_parse_msg key "src/a.md") \/
   (exists difference : gset string,
      difference <> ∅ /\ difference ⊆ header_keys /\
      invalid_field_msg "src/a.md" (Py.strip "Author")
      = missing_fields_msg difference "src/a.md")).
Proof.
  apply (@parser_messages_name_the_file iso_date ["Author: me"; "Title: a"]).
  unfold head_to_context.
  rewrite (@head_loop_unknown iso_date "src/a.md" ∅ "Author: me" ["Title: a"]
             "Author" " me" eq_refl); [done|].
  rewrite header_keys_eq. vm_compute Py.strip. set_solver.
Defined.

Lemma parser_raises_only_on_missing_colon_witness :
  ValueError = ValueError /\
  exists line, line ∈ ["Title: a"; "IsDraft 1"] /\ Py.split1 ":" line = None.
Proof.
  apply (@parser_raises_only_on_missing_colon iso_date
           ["Title: a"; "IsDraft 1"] "src/a.md").
  reflexivity.
Defined.


(** ** How one document ends *)

Section DocumentOutcome.
Context `{DateTime}.

(** [make_record] does not fail on a context that [head_to_context]
    returned, and the template name is then text. *)
Lemma render_file_cases env d st render_paths :
  match Py.next_n HEADER_LINES (content d) with
  | None =>
      render_file env d st render_paths =
        (st, Fatal [Lit "Not all header provided in "; FStr (src_path d)])
  | Some (head, text) =>
      match head_to_context head (src_path d) with
      | Fatal msg => render_file env d st render_paths = (st, Fatal msg)
      | Raised e => render_file env d st render_paths = (st, Raised e)
      | Ok context =>
          exists name, context !! "Template" = Some (VStr name) /\
            if tpl_exists env name then
              match get_template env name with
              | None =>
                  render_file env d st render_paths =
                    (st, Raised (TemplateNotFound name))
              | Some template =>
                  exists r st', render_file env d st render_paths =
                    (st', Ok (render_paths ++ [r]))
              end
            else
              render_file env d st render_paths =
                (st, Fatal [Lit "Template "; FBool false; Lit " does not exists."])
      end
  end.
Proof.
  destruct (Py.next_n HEADER_LINES (content d)) as [[head text]|] eqn:En.
  - destruct (head_to_context head (src_path d)) as [context|msg|e] eqn:Eh.
    + destruct (context_types _ _ _ Eh) as (t & name & ds & dp & z & _ & E2 & _).
      exists name. split; [done|].
      destruct (tpl_exists env name) eqn:Ex.
      * destruct (get_template env name) as [template|] eqn:Eg.
        -- destruct (render_file_rendered env d st render_paths _ _ _ _ _
                       En Eh E2 Ex Eg) as (t' & dp' & z' & _ & _ & _ & ->).
           by eexists _, _.
        -- unfold render_file, get_str. rewrite En, Eh.
           rewrite lookup_insert_ne by done. by rewrite E2, Ex, Eg.
      * exact (render_file_no_template env d st render_paths head text context
                 name En Eh E2 Ex).
    + unfold render_file. by rewrite En, Eh.
    + unfold render_file. by rewrite En, Eh.
  - unfold render_file. by rewrite En.
Qed.

Lemma render_file_ok_renderable env d st render_paths st' render_paths' :
  render_file env d st render_paths = (st', Ok render_paths') -> renderable env d.
Proof.
  intros E. apply render_file_inv in E
    as (head & text & ctx & name & tpl & r & En & Eh & Et & Ex & Eg & _).
  by exists head, text, ctx, name, tpl.
Qed.

Lemma renderable_render_file env d st render_paths :
  renderable env d ->
  exists st' r,
    render_file env d st render_paths = (st', Ok (render_paths ++ [r])) /\
    posts st' !! out_name d <> None /\
    dom (posts st') = {[out_name d]} ∪ dom (posts st) /\
    index_html st' = index_html st /\
    log st' = log st ++ [rendered_line d].
Proof.
  intros (head & text & ctx & name & tpl & En & Eh & Et & Ex & Eg).
  destruct (render_file_rendered env d st render_paths _ _ _ _ _ En Eh Et Ex Eg)
    as (t & dp & z & _ & _ & _ & ->).
  eexists _, _. split; [reflexivity|]. simpl.
  rewrite lookup_insert_eq, dom_insert_L. by repeat split.
Qed.

(** X10.  A document that does not pass the loop body leaves no trace: the
    posts directory, [index.html] and the log are as they were when the
    loop arrived at it. *)
Theorem failed_document_leaves_no_trace env d st render_paths st' o :
  render_file env d st render_paths = (st', o) ->
  (forall render_paths', o <> Ok render_paths') ->
  st' = st.
Proof.
  intros E Hf. pose proof (render_file_cases env d st render_paths) as Hc.
  destruct (Py.next_n HEADER_LINES (content d)) as [[head text]|]; [|congruence].
  destruct (head_to_context head (src_path d)) as [context|msg|e]; [|congruence..].
  destruct Hc as (name & _ & Hc). destruct (tpl_exists env name); [|congruence].
  destruct (get_template env name); [|congruence].
  destruct Hc as (r & st'' & Hc). rewrite Hc in E. injection E as <- <-.
  by destruct (Hf (render_paths ++ [r])).
Qed.

(** X11.  The messages and exceptions with which one document can end the
    run.  A logged message carries the path of the document, except the one
    about the template, which reads [Template False does not exists.]; an
    exception is the [ValueError] of a header line without colon or the
    [TemplateNotFound] of the loader, for the template that the header
    names. *)
Theorem document_failures env d st render_paths st' :
  (forall msg,
     render_file env d st render_paths = (st', Fatal msg) ->
     mentions msg (src_path d) \/
     msg = [Lit "Template "; FBool false; Lit " does not exists."]) /\
  (forall e,
     render_file env d st render_paths = (st', Raised e) ->
     e = ValueError \/
     exists head text context name,
       Py.next_n HEADER_LINES (content d) = Some (head, text) /\
       head_to_context head (src_path d) = Ok context /\
       context !! "Template" = Some (VStr name) /\
       e = TemplateNotFound name).
Proof.
  pose proof (render_file_cases env d st render_paths) as Hc.
  destruct (Py.next_n HEADER_LINES (content d)) as [[head text]|] eqn:En.
  - destruct (head_to_context head (src_path d)) as [context|msg0|e0] eqn:Eh.
    + destruct Hc as (name & Et & Hc). destruct (tpl_exists env name).
      * destruct (get_template env name).
        -- destruct Hc as (r & st'' & ->). split; intros; congruence.
        -- rewrite Hc. split; [congruence|]. intros e [= _ <-]. right.
           by exists head, text, context, name.
      * rewrite Hc. split; [|congruence]. intros msg [= _ <-]. by right.
    + rewrite Hc. split; [|congruence]. intros msg [= _ <-]. left.
      apply head_fatal_cases in Eh
        as [(k & _ & ->)|[(k & _ & ->)|(X & _ & _ & ->)]];
        unfold mentions, invalid_field_msg, unable_to_parse_msg,
          missing_fields_msg; set_solver.
    + rewrite Hc. split; [congruence|]. intros e [= _ <-]. left.
      by apply head_raised in Eh as [-> _].
  - rewrite Hc. split; [|congruence]. intros msg [= _ <-]. left.
    unfold mentions. set_solver.
Qed.


End DocumentOutcome.

(** ** How the run ends and what it leaves *)

Section RunOutcome.
Context `{DateTime}.

(** The loop renders the documents in order up to the first that does not
    pass, and ends as that document ends. *)
Lemma render_files_prefix env sources st render_paths st' o :
  render_files env sources st render_paths = (st', o) ->
  exists n,
    (n <= length sources)%nat /\
    Forall (renderable env) (take n sources) /\
    dom (posts st') = dom (posts st) ∪ list_to_set (out_name <$> take n sources) /\
    log st' = log st ++ (rendered_line <$> take n sources) /\
    index_html st' = index_html st /\
    match o with
    | Ok render_paths' =>
        n = length sources /\
        length render_paths' = (length render_paths + length sources)%nat
    | _ => exists d st0 render_paths0,
        sources !! n = Some d /\ ~ renderable env d /\
        render_file env d st0 render_paths0 = (st0, o)
    end.
Proof.
  revert st render_paths.
  induction sources as [|d sources IH]; intros st rps E; simpl in E.
  - injection E as <- <-. exists 0%nat. simpl.
    split; [lia|]. split; [constructor|]. split; [set_solver|].
    split; [by rewrite app_nil_r|]. split; [done|]. split; [done|lia].
  - destruct (render_file env d st rps) as [st1 o1] eqn:Ed.
    destruct o1 as [rps1|msg|e].
    + pose proof (render_file_ok_renderable _ _ _ _ _ _ Ed) as Hr.
      destruct (renderable_render_file env d st rps Hr)
        as (st2 & r & Ed' & _ & Hdom & Hidx & Hlog).
      rewrite Ed in Ed'. injection Ed' as <- ->.
      destruct (IH _ _ E) as (n & Hn & Hf & Hd & Hl & Hi & Ho).
      exists (S n). simpl. split; [lia|]. split; [by constructor|].
      split; [rewrite Hd, Hdom; set_solver|].
      split; [rewrite Hl, Hlog, <- app_assoc; done|].
      split; [congruence|].
      destruct o as [rps'| |]; [|done..].
      destruct Ho as [-> Hlen]. split; [done|].
      rewrite Hlen, length_app. simpl. lia.
    + injection E as <- <-. exists 0%nat. simpl. rewrite app_nil_r.
      assert (st1 = st) as ->.
      { pose proof (render_file_cases env d st rps) as Hc.
        destruct (Py.next_n _ _) as [[head text]|]; [|congruence].
        destruct (head_to_context _ _); [|congruence..].
        destruct Hc as (name & _ & Hc). destruct (tpl_exists env name); [|congruence].
        destruct (get_template env name); [|congruence].
        destruct Hc as (? & ? & Hc). congruence. }
      split; [lia|]. split; [constructor|]. split; [set_solver|].
      split; [done|]. split; [done|].
      exists d, st, rps. split; [done|]. split; [|done]. intros Hr.
      destruct (renderable_render_file env d st rps Hr) as (? & ? & Ed' & _).
      congruence.
    + injection E as <- <-. exists 0%nat. simpl. rewrite app_nil_r.
      assert (st1 = st) as ->.
      { pose proof (render_file_cases env d st rps) as Hc.
        destruct (Py.next_n _ _) as [[head text]|]; [|congruence].
        destruct (head_to_context _ _); [|congruence..].
        destruct Hc as (name & _ & Hc). destruct (tpl_exists env name); [|congruence].
        destruct (get_template env name); [|congruence].
        destruct Hc as (? & ? & Hc). congruence. }
      split; [lia|]. split; [constructor|]. split; [set_solver|].
      split; [done|]. split; [done|].
      exists d, st, rps. split; [done|]. split; [|done]. intros Hr.
      destruct (renderable_render_file env d st rps Hr) as (? & ? & Ed' & _).
      congruence.
Qed.

Lemma renderable_render_files env sources st render_paths :
  Forall (renderable env) sources ->
  exists st' render_paths',
    render_files env sources st render_paths = (st', Ok render_paths').
Proof.
  intros F. revert st render_paths.
  induction F as [|d sources Hd F IH]; intros st rps; simpl.
  - by eexists _, _.
  - destruct (renderable_render_file env d st rps Hd) as (st1 & r & -> & _).
    apply IH.
Qed.


(** X14.  What a run leaves in the posts directory and in the log, however
    it ends: the output files of the documents rendered before it ended,
    which are the first [n] in enumeration order, and nothing of what the
    directory held before; one line logged for each of them, in order.
    When the run completes these are all the documents. *)
Theorem posts_and_log_after_run env sources st st' o :
  run env sources st = (st', o) ->
  exists n,
    (n <= length sources)%nat /\
    Forall (renderable env) (take n sources) /\
    dom (posts st') = list_to_set (out_name <$> take n sources) /\
    log st' = log st ++ (rendered_line <$> take n sources) /\
    (o = Ok tt -> n = length sources).
Proof.
  unfold run. fold (emptied st). intros E.
  destruct (render_files env sources (emptied st) []) as [st1 o1] eqn:El.
  apply render_files_prefix in El as (n & Hn & Hf & Hd & Hl & Hi & Ho).
  simpl in Hd, Hl. rewrite dom_empty_L, (left_id_L ∅ (∪)) in Hd.
  exists n. destruct o1 as [rps|msg|e].
  - destruct Ho as [-> _]. unfold render_index in E.
    destruct (get_template env "index.jinja2"); injection E as <- <-;
      by repeat split.
  - injection E as <- <-. by repeat split.
  - injection E as <- <-. by repeat split.
Qed.

(** X15.  A run that ends with a logged message ended in the loop over the
    documents: [index.html] is as it was before the run, the document at
    which the loop stopped does not pass the loop body, and the message is
    about that document: it carries its path, unless it is the message
    about the template. *)
Theorem fatal_run env sources st st' msg :
  run env sources st = (st', Fatal msg) ->
  index_html st' = index_html st /\
  exists n d,
    sources !! n = Some d /\ ~ renderable env d /\
    Forall (renderable env) (take n sources) /\
    (mentions msg (src_path d) \/
     msg = [Lit "Template "; FBool false; Lit " does not exists."]).
Proof.
  unfold run. fold (emptied st). intros E.
  destruct (render_files env sources (emptied st) []) as [st1 o1] eqn:El.
  destruct o1 as [rps|msg1|e].
  - unfold render_index in E. by destruct (get_template env "index.jinja2").
  - injection E as <- <-.
    apply render_files_prefix in El
      as (n & _ & Hf & _ & _ & Hi & d & st0 & rps0 & Hd & Hnr & Ed).
    split; [done|]. exists n, d. repeat split; try done.
    pose proof (render_file_cases env d st0 rps0) as Hc.
    destruct (Py.next_n _ _) as [[head text]|].
    + destruct (head_to_context head (src_path d)) as [context|msg0|e0] eqn:Eh.
      * destruct Hc as (name & _ & Hc). destruct (tpl_exists env name).
        -- destruct (get_template env name); [|congruence].
           destruct Hc as (? & ? & Hc). congruence.
        -- right. congruence.
      * left. assert (msg1 = msg0) as -> by congruence.
        apply head_fatal_cases in Eh
          as [(k & _ & ->)|[(k & _ & ->)|(X & _ & _ & ->)]];
          unfold mentions, invalid_field_msg, unable_to_parse_msg,
            missing_fields_msg; set_solver.
      * congruence.
    + left. assert (msg1 = [Lit "Not all header provided in "; FStr (src_path d)])
        as -> by congruence.
      unfold mentions. set_solver.
  - done.
Qed.


(** The loop gives the same files, the same records and the same end from
    two sites that hold the same posts. *)
Lemma render_file_same_posts env d st1 st2 render_paths :
  posts st1 = posts st2 ->
  exists p delta o,
    render_file env d st1 render_paths =
      (mkSite p (index_html st1) (log st1 ++ delta), o) /\
    render_file env d st2 render_paths =
      (mkSite p (index_html st2) (log st2 ++ delta), o).
Proof.
  intros Hp. unfold render_file.
  destruct (Py.next_n _ _) as [[head text]|].
  2: { exists (posts st1), [], (Fatal [Lit "Not all header provided in ";
                                        FStr (src_path d)]).
       rewrite !app_nil_r. destruct st1, st2. simpl in *. by subst. }
  destruct (head_to_context _ _) as [context|msg|e].
  2: { exists (posts st1), [], (Fatal msg). rewrite !app_nil_r.
       destruct st1, st2. simpl in *. by subst. }
  2: { exists (posts st1), [], (Raised e). rewrite !app_nil_r.
       destruct st1, st2. simpl in *. by subst. }
  destruct (get_str _ _) as [name|msg|e].
  2: { exists (posts st1), [], (Fatal msg). rewrite !app_nil_r.
       destruct st1, st2. simpl in *. by subst. }
  2: { exists (posts st1), [], (Raised e). rewrite !app_nil_r.
       destruct st1, st2. simpl in *. by subst. }
  destruct (tpl_exists env name).
  2: { eexists (posts st1), [], _. rewrite !app_nil_r.
       destruct st1, st2. simpl in *. by subst. }
  destruct (get_template env name) as [template|].
  2: { eexists (posts st1), [], _. rewrite !app_nil_r.
       destruct st1, st2. simpl in *. by subst. }
  destruct (make_record d _) as [r|msg|e]; rewrite Hp.
  - by eexists _, _, _.
  - eexists _, [], _. by rewrite !app_nil_r.
  - eexists _, [], _. by rewrite !app_nil_r.
Qed.

Lemma render_files_same_posts env sources st1 st2 render_paths :
  posts st1 = posts st2 ->
  exists p delta o,
    render_files env sources st1 render_paths =
      (mkSite p (index_html st1) (log st1 ++ delta), o) /\
    render_files env sources st2 render_paths =
      (mkSite p (index_html st2) (log st2 ++ delta), o).
Proof.
  revert st1 st2 render_paths.
  induction sources as [|d sources IH]; intros st1 st2 rps Hp; simpl.
  - exists (posts st1), [], (Ok rps). rewrite !app_nil_r.
    destruct st1, st2. simpl in *. by subst.
  - destruct (render_file_same_posts env d st1 st2 rps Hp)
      as (p & delta & o & -> & ->).
    destruct o as [rps1|msg|e];
      [|by exists p, delta, (Fatal msg)|by exists p, delta, (Raised e)].
    destruct (IH (mkSite p (index_html st1) (log st1 ++ delta))
                 (mkSite p (index_html st2) (log st2 ++ delta)) rps1 eq_refl)
      as (p' & delta' & o' & -> & ->).
    simpl. exists p', (delta ++ delta'), o'. by rewrite <- !app_assoc.
Qed.

(** The loop over the sources, from an emptied posts directory, does the
    same whatever the site held. *)
Lemma render_files_emptied env sources :
  exists p delta o, forall st,
    render_files env sources (emptied st) [] =
      (mkSite p (index_html st) (log st ++ delta), o).
Proof.
  destruct (render_files_same_posts env sources (emptied (mkSite ∅ None []))
              (emptied (mkSite ∅ None [])) [] eq_refl) as (p & delta & o & E & _).
  exists p, delta, o. intros st.
  destruct (render_files_same_posts env sources (emptied (mkSite ∅ None []))
              (emptied st) [] eq_refl) as (p' & delta' & o' & E' & ->).
  rewrite E in E'. injection E' as -> Hd ->. simpl in Hd. by subst.
Qed.

(** X17.  Running the script again on the same sources and templates gives
    the same posts directory, the same [index.html] and the same end as the
    first run, whatever the site held before the first run. *)
Theorem run_twice env sources st :
  let first := run env sources st in
  let second := run env sources first.1 in
  second.2 = first.2 /\
  posts second.1 = posts first.1 /\
  index_html second.1 = index_html first.1.
Proof.
  destruct (render_files_emptied env sources) as (p & delta & o & Hs).
  assert (Hrun : forall st0, run env sources st0 =
    match o with
    | Ok rps =>
        render_index env (mkSite p (index_html st0) (log st0 ++ delta)) rps
    | Fatal msg => (mkSite p (index_html st0) (log st0 ++ delta), Fatal msg)
    | Raised e => (mkSite p (index_html st0) (log st0 ++ delta), Raised e)
    end).
  { intros st0. unfold run. fold (emptied st0). rewrite Hs. by destruct o. }
  cbv zeta. rewrite (Hrun st), Hrun.
  destruct o as [rps|msg|e]; [|done..].
  unfold render_index. simpl. by destruct (get_template env "index.jinja2").
Qed.

End RunOutcome.

(** ** The records and the posts directory *)

Lemma length_append (a b : string) :
  String.length (a +:+ b) = (String.length a + String.length b)%nat.
Proof. induction a as [|x a IH]; simpl; [done|]. by rewrite IH. Qed.

Lemma append_inj_l (a b c : string) : a +:+ c = b +:+ c -> a = b.
Proof.
  revert b. induction a as [|x a IH]; intros [|y b] E; simpl in E.
  - done.
  - apply (f_equal String.length) in E. simpl in E.
    rewrite !length_append in E. simpl in E. lia.
  - apply (f_equal String.length) in E. simpl in E.
    rewrite !length_append in E. simpl in E. lia.
  - injection E as -> E. by rewrite (IH b E).
Qed.

Lemma has_slash_append a b :
  Py.has_slash (a +:+ b) = Py.has_slash a || Py.has_slash b.
Proof.
  induction a as [|x a IH]; simpl; [done|]. rewrite IH. by rewrite orb_assoc.
Qed.

Lemma path_name_no_slash p : Py.has_slash p = false -> Py.path_name p = p.
Proof.
  destruct p as [|c p]; simpl; [done|].
  intros [Hc Hp]%orb_false_iff. by rewrite Hp, Hc.
Qed.

Lemma path_name_dir a b :
  Py.has_slash b = false -> Py.path_name (a +:+ String "/" b) = b.
Proof.
  intros Hb. induction a as [|x a IH]; simpl.
  - by rewrite Hb.
  - rewrite has_slash_append. simpl. by rewrite orb_true_r.
Qed.

Section Records.
Context `{DateTime}.

(** X18.  The record of a rendered document: its paths are those of the
    source and of the output file, its title, date and draft flag are what
    the header parsed to, and, the stem of a file name having no slash, its
    [Url] is [posts/] followed by the stem and [.html]. *)
Theorem record_of_rendered_document env d st render_paths st' render_paths' :
  render_file env d st render_paths = (st', Ok render_paths') ->
  Py.has_slash (stem d) = false ->
  exists head text context r,
    render_paths' = render_paths ++ [r] /\
    Py.next_n HEADER_LINES (content d) = Some (head, text) /\
    head_to_context head (src_path d) = Ok context /\
    InPath r = "src/" +:+ stem d +:+ ".md" /\
    OutPath r = "posts/" +:+ stem d +:+ ".html" /\
    context !! "Title" = Some (VStr (Title r)) /\
    context !! "DatePublished" = Some (VDate (DatePublished r)) /\
    context !! "IsDraft" = Some (VInt (IsDraft r)) /\
    Url r = "posts/" +:+ stem d +:+ ".html".
Proof.
  intros E Hs.
  pose proof E as E'. apply render_file_inv in E'
    as (head & text & ctx & name & tpl & r0 & En & Eh & Et & Ex & Eg & _).
  destruct (render_file_rendered env d st render_paths _ _ _ _ _ En Eh Et Ex Eg)
    as (t & dp & z & E1 & E4 & E5 & Er).
  rewrite Er in E. injection E as _ <-.
  eexists head, text, ctx, _. split; [reflexivity|]. simpl.
  repeat split; try done.
  unfold Url, out_name. simpl. f_equal.
  apply (path_name_dir "posts").
  by rewrite has_slash_append, Hs.
Qed.

(** X19.  When no two source files have the same stem and the run
    completes, the posts directory holds as many files as there are source
    documents. *)
Theorem one_file_per_document env sources st st' :
  NoDup (stem <$> sources) ->
  run env sources st = (st', Ok tt) ->
  size (dom (posts st')) = length sources.
Proof.
  intros ND E. unfold run in E. fold (emptied st) in E.
  destruct (render_files env sources (emptied st) []) as [st1 [rps| |]] eqn:El;
    [|done..].
  apply render_files_prefix in El as (n & _ & _ & Hd & _ & _ & -> & _).
  rewrite firstn_all in Hd. simpl in Hd.
  rewrite dom_empty_L, (left_id_L ∅ (∪)) in Hd.
  assert (posts st' = posts st1) as ->.
  { unfold render_index in E.
    destruct (get_template env "index.jinja2"); by injection E as <-. }
  rewrite Hd, size_list_to_set, length_fmap; [done|].
  clear -ND. induction sources as [|d sources IH]; [constructor|].
  rewrite !fmap_cons in *. apply NoDup_cons in ND as [Hn ND].
  constructor; [|by apply IH]. intros Hin. apply Hn.
  apply list_elem_of_fmap in Hin as (d' & Ho & Hd').
  apply list_elem_of_fmap. exists d'. split; [|done].
  unfold out_name in Ho. by apply append_inj_l in Ho.
Qed.

End Records.

(** ** More on the order of the index *)

Lemma sort_sorted_id {A K : Type} (key : A -> K) (lt : K -> K -> bool) l :
  StronglySorted (fun a b => lt (key b) (key a) = false) l ->
  Py.sort key lt l = l.
Proof.
  induction 1 as [|x l S IH Hx]; [done|].
  unfold Py.sort in *. simpl. rewrite IH.
  destruct l as [|y l]; [done|]. simpl.
  apply Forall_cons in Hx as [Hy _]. by rewrite Hy.
Qed.

(** X20.  The index of an index: sorting the records once more leaves them
    as they are. *)
Theorem index_posts_idempotent `{D : DateTime} `{!DateTimeOrder D}
    (render_paths : list RenderRecord) :
  index_posts (index_posts render_paths) = index_posts render_paths.
Proof.
  destruct (sorted_reverse_spec DatePublished dt_ltb dt_asym dt_cotrans
              render_paths) as (_ & S & _).
  fold (index_posts render_paths) in S.
  unfold index_posts at 1. unfold Py.sorted.
  rewrite sort_sorted_id; [apply rev_involutive|].
  apply (StronglySorted_rev
           (fun a b => dt_ltb (DatePublished a) (DatePublished b) = false)), S.
Qed.

(** X21.  When no two records tie on their date, the index does not depend
    on the order in which the documents were enumerated. *)
Theorem index_ignores_enumeration_order `{D : DateTime} `{!DateTimeOrder D}
    (render_paths render_paths' : list RenderRecord) :
  render_paths ≡ₚ render_paths' ->
  (forall a b, a ∈ render_paths -> b ∈ render_paths ->
     dt_tie (DatePublished a) (DatePublished b) = true -> a = b) ->
  index_posts render_paths = index_posts render_paths'.
Proof.
  intros P Hties.
  destruct (sorted_reverse_spec DatePublished dt_ltb dt_asym dt_cotrans
              render_paths) as (P1 & S1 & _).
  destruct (sorted_reverse_spec DatePublished dt_ltb dt_asym dt_cotrans
              render_paths') as (P2 & S2 & _).
  fold (index_posts render_paths) in P1, S1.
  fold (index_posts render_paths') in P2, S2.
  eapply StronglySorted_unique_strong; [|exact S1|exact S2|].
  - intros a b Ha Hb Hab Hba. apply Hties.
    + by rewrite <- P1.
    + by rewrite P, <- P2.
    + unfold dt_tie. by rewrite Hab, Hba.
  - by rewrite P1, P2.
Qed.

(** ** Instances of the further theorems *)

Lemma jan_renderable : renderable site_env jan_post.
Proof.
  unfold renderable. eexists _, _, _, "post.jinja2", post_template.
  split; [vm_compute; reflexivity|]. split; [|split; [|split]].
  - apply (@head_to_context_ok iso_date _ _
      [("Title", @VStr iso_date "January"); ("Template", VStr "post.jinja2");
       ("MetaDescription", VStr "about January");
       ("DatePublished", @VDate iso_date (2024, 1, 1)); ("IsDraft", VInt 0)]).
    + repeat constructor.
      * known_line "January" conv_str.
      * known_line "post.jinja2" conv_str.
      * known_line "about January" conv_str.
      * known_line "2024-01-01" conv_parse.
      * known_line "0" conv_int.
    + rewrite header_keys_eq. simpl. set_solver.
  - unfold store. simpl. by simplify_map_eq.
  - reflexivity.
  - reflexivity.
Qed.

Lemma jan_run : exists st', run site_env [jan_post] fresh_site = (st', Ok tt).
Proof.
  unfold run. fold (emptied fresh_site).
  destruct (renderable_render_files site_env [jan_post] (emptied fresh_site) [])
    as (st1 & rps & ->); [repeat constructor; apply jan_renderable|].
  unfold render_index. simpl. by eexists.
Qed.

Lemma short_post_run env rest :
  run env (short_post :: rest) fresh_site =
    (fresh_site,
     Fatal [Lit "Not all header provided in "; FStr (src_path short_post)]).
Proof.
  unfold run. fold (emptied fresh_site). cbn [render_files].
  rewrite render_file_short; [done|]. vm_compute. lia.
Qed.

Lemma failed_document_leaves_no_trace_witness :
  mkSite (<["old.html" := "old"]> ∅) (Some "index") [] =
  mkSite (<["old.html" := "old"]> ∅) (Some "index") [].
Proof.
  apply (@failed_document_leaves_no_trace iso_date bare_env short_post
           (mkSite (<["old.html" := "old"]> ∅) (Some "index") []) []
           (mkSite (<["old.html" := "old"]> ∅) (Some "index") [])
           (Fatal [Lit "Not all header provided in "; FStr (src_path short_post)])).
  - apply render_file_short. vm_compute. lia.
  - intros rps. discriminate.
Defined.


Lemma posts_and_log_after_run_witness :
  exists n,
    (n <= length [short_post; jan_post])%nat /\
    Forall (renderable bare_env) (take n [short_post; jan_post]) /\
    dom (posts fresh_site)
      = list_to_set (out_name <$> take n [short_post; jan_post]) /\
    log fresh_site
      = log fresh_site ++ (rendered_line <$> take n [short_post; jan_post]) /\
    (Fatal [Lit "Not all header provided in "; FStr (src_path short_post)]
       = Ok tt -> n = length [short_post; jan_post]).
Proof.
  apply (@posts_and_log_after_run iso_date bare_env [short_post; jan_post]
           fresh_site fresh_site).
  apply short_post_run.
Defined.

Lemma fatal_run_witness :
  index_html fresh_site = index_html fresh_site /\
  exists n d,
    [short_post; jan_post] !! n = Some d /\ ~ renderable bare_env d /\
    Forall (renderable bare_env) (take n [short_post; jan_post]) /\
    (mentions [Lit "Not all header provided in "; FStr (src_path short_post)]
       (src_path d) \/
     [Lit "Not all header provided in "; FStr (src_path short_post)]
       = [Lit "Template "; FBool false; Lit " does not exists."]).
Proof.
  apply (@fatal_run iso_date bare_env [short_post; jan_post] fresh_site fresh_site).
  apply short_post_run.
Defined.


Lemma record_of_rendered_document_witness :
  exists head text context r,
    (render_file site_env jan_post fresh_site []).2 = Ok ([] ++ [r]) /\
    Py.next_n HEADER_LINES (content jan_post) = Some (head, text) /\
    head_to_context head (src_path jan_post) = Ok context /\
    InPath r = "src/" +:+ stem jan_post +:+ ".md" /\
    OutPath r = "posts/" +:+ stem jan_post +:+ ".html" /\
    context !! "Title" = Some (VStr (Title r)) /\
    context !! "DatePublished" = Some (VDate (DatePublished r)) /\
    context !! "IsDraft" = Some (VInt (IsDraft r)) /\
    Url r = "posts/" +:+ stem jan_post +:+ ".html".
Proof.
  destruct (renderable_render_file site_env jan_post fresh_site [] jan_renderable)
    as (st' & r0 & E & _).
  destruct (@record_of_rendered_document iso_date _ _ _ _ _ _ E eq_refl)
    as (head & text & ctx & r & Hr & Hrest).
  exists head, text, ctx, r. rewrite E. simpl in *. injection Hr as ->.
  split; [done|exact Hrest].
Defined.

Lemma one_file_per_document_witness :
  size (dom (posts (run site_env [jan_post] fresh_site).1)) = length [jan_post].
Proof.
  destruct jan_run as [st' E].
  apply (@one_file_per_document iso_date site_env [jan_post] fresh_site).
  - repeat constructor. set_solver.
  - by rewrite E.
Defined.

Lemma index_posts_idempotent_witness :
  index_posts (index_posts three_records) = index_posts three_records.
Proof.
  exact (@index_posts_idempotent iso_date iso_date_order three_records).
Defined.

Lemma three_records_no_ties a b :
  a ∈ three_records -> b ∈ three_records ->
  dt_tie (DatePublished a) (DatePublished b) = true -> a = b.
Proof.
  intros Ha%list_elem_of_In Hb%list_elem_of_In.
  simpl in Ha, Hb.
  destruct Ha as [<-|[<-|[<-|[]]]]; destruct Hb as [<-|[<-|[<-|[]]]];
    intros Ht; try reflexivity; by vm_compute in Ht.
Qed.

Lemma index_ignores_enumeration_order_witness :
  index_posts three_records = index_posts (rev three_records).
Proof.
  apply (@index_ignores_enumeration_order iso_date iso_date_order).
  - apply Permutation_rev.
  - apply three_records_no_ties.
Defined.
